(** * dockershrink: the prompt-construction and response-extraction protocol
    of [AIService.add_multistage_builds] (src/dockershrink/ai.py).

    First the Python values and string methods that the function uses, then
    the function itself, in a monad for exceptions and for the requests made to
    the completion provider, then the properties of the rendered prompt, of the
    run of a call and of the sanitization of the completion. *)

From stdpp Require Import gmap list strings.

(** ** Python strings

    A Python [str] is a sequence of Unicode code points. *)

Definition char : Type := N.
Definition str : Type := list char.

(** Literals. All literals of the source are ASCII, where a byte of the
    literal is its code point. *)
Definition py (s : string) : str := Ascii.N_of_ascii <$> String.list_ascii_of_string s.

Definition nl : str := [10%N].
Definition dq : str := [34%N].
Definition backtick : char := 96%N.

(** [str.isspace] on one code point, the test that [str.strip()] applies:
    CPython's [_PyUnicode_IsWhitespace]. *)
Definition whitespace : list char :=
  [0x09; 0x0A; 0x0B; 0x0C; 0x0D; 0x1C; 0x1D; 0x1E; 0x1F; 0x20; 0x85; 0xA0;
   0x1680; 0x2000; 0x2001; 0x2002; 0x2003; 0x2004; 0x2005; 0x2006; 0x2007;
   0x2008; 0x2009; 0x200A; 0x2028; 0x2029; 0x202F; 0x205F; 0x3000]%N.

Definition member (c : char) (chars : list char) : bool := existsb (N.eqb c) chars.

Definition isspace (c : char) : bool := member c whitespace.

(** [s.lstrip], [s.rstrip] and [s.strip] for a set of characters given by its
    membership test: characters are dropped from an end while they belong to
    the set. *)
Fixpoint lstrip_by (drop : char → bool) (s : str) : str :=
  match s with
  | [] => []
  | c :: s' => if drop c then lstrip_by drop s' else s
  end.

Definition rstrip_by (drop : char → bool) (s : str) : str :=
  reverse (lstrip_by drop (reverse s)).

Definition strip_by (drop : char → bool) (s : str) : str :=
  rstrip_by drop (lstrip_by drop s).

(** [s.strip(chars)]: with no argument ([None]) whitespace is removed,
    otherwise every character that occurs in [chars]. *)
Definition strip (chars : option str) (s : str) : str :=
  match chars with
  | None => strip_by isspace s
  | Some cs => strip_by (λ c, member c cs) s
  end.

(** [sep.join(parts)]. *)
Fixpoint join (sep : str) (parts : list str) : str :=
  match parts with
  | [] => []
  | [p] => p
  | p :: rest => p ++ sep ++ join sep rest
  end.

(** [s.startswith(sub)] and [sub in s]. *)
Fixpoint startswith (s sub : str) {struct sub} : bool :=
  match sub, s with
  | [], _ => true
  | _ :: _, [] => false
  | a :: sub', b :: s' => N.eqb a b && startswith s' sub'
  end.

Fixpoint contains (s sub : str) : bool :=
  startswith s sub ||
  match s with
  | [] => false
  | _ :: s' => contains s' sub
  end.

(** [str(n)] for a natural number: its decimal digits. *)
Fixpoint digits (d : Decimal.uint) : str :=
  match d with
  | Decimal.Nil => []
  | Decimal.D0 d => 48%N :: digits d
  | Decimal.D1 d => 49%N :: digits d
  | Decimal.D2 d => 50%N :: digits d
  | Decimal.D3 d => 51%N :: digits d
  | Decimal.D4 d => 52%N :: digits d
  | Decimal.D5 d => 53%N :: digits d
  | Decimal.D6 d => 54%N :: digits d
  | Decimal.D7 d => 55%N :: digits d
  | Decimal.D8 d => 56%N :: digits d
  | Decimal.D9 d => 57%N :: digits d
  end.

Definition str_of_nat (n : nat) : str := digits (Nat.to_uint n).

(** ** Exceptions

    The exceptions that can leave [add_multistage_builds]: the ones Python
    raises on a failed subscript, attribute access or template, and whatever
    the client raises. [InputError] and [SanitizationError] are the failure
    kinds the system description names; the source has no statement that raises
    either. *)
Inductive exception : Type :=
| KeyError (key : str)
| IndexError
| ValueError
| AttributeError
| ProviderError (error_class : string)
| InputError
| SanitizationError.

Inductive outcome (A : Type) : Type :=
| Return (a : A)
| Raise (e : exception).
Arguments Return {A} a.
Arguments Raise {A} e.

#[export] Instance outcome_ret : MRet outcome := λ A a, Return a.
#[export] Instance outcome_bind : MBind outcome := λ A B f m,
  match m with
  | Return a => f a
  | Raise e => Raise e
  end.

(** [d[key]] on a dict and [l[i]] on a list, for a natural index. *)
Definition getitem (d : gmap str str) (key : str) : outcome str :=
  match d !! key with
  | Some v => Return v
  | None => Raise (KeyError key)
  end.

Definition item {A} (l : list A) (i : nat) : outcome A :=
  match l !! i with
  | Some a => Return a
  | None => Raise IndexError
  end.

(** [for i in range(n): acc = body(acc, i)]. *)
Fixpoint for_each {S} (body : S → nat → outcome S) (range : list nat) (acc : S) : outcome S :=
  match range with
  | [] => Return acc
  | i :: range' => acc' ← body acc i; for_each body range' acc'
  end.

Definition for_range {S} (n : nat) (body : S → nat → outcome S) (acc : S) : outcome S :=
  for_each body (seq 0 n) acc.

(** [template.format] with keyword arguments [kwargs], for templates whose replacement fields are
    plain names: literal text is copied, a doubled brace stands for one brace,
    [{name}] is replaced by [kwargs[name]]. The scanner is in one of four
    states. *)
Inductive format_state : Type :=
| Literal
| Opened
| Field (name : str)
| Closed.

Definition lbrace : char := 123%N.
Definition rbrace : char := 125%N.

Fixpoint format_from (st : format_state) (template : str) (kwargs : gmap str str) : outcome str :=
  match template with
  | [] =>
      match st with
      | Literal => Return []
      | _ => Raise ValueError
      end
  | c :: rest =>
      match st with
      | Literal =>
          if N.eqb c lbrace then format_from Opened rest kwargs
          else if N.eqb c rbrace then format_from Closed rest kwargs
          else out ← format_from Literal rest kwargs; Return (c :: out)
      | Opened =>
          if N.eqb c lbrace then out ← format_from Literal rest kwargs; Return (lbrace :: out)
          else if N.eqb c rbrace then Raise IndexError
          else format_from (Field [c]) rest kwargs
      | Field name =>
          if N.eqb c rbrace then
            value ← getitem kwargs name;
            out ← format_from Literal rest kwargs;
            Return (value ++ out)
          else if N.eqb c lbrace then Raise ValueError
          else format_from (Field (name ++ [c])) rest kwargs
      | Closed =>
          if N.eqb c rbrace then out ← format_from Literal rest kwargs; Return (rbrace :: out)
          else Raise ValueError
      end
  end.

Definition format (template : str) (kwargs : gmap str str) : outcome str :=
  format_from Literal template kwargs.

(** ** The completion provider

    A request carries the message list and the model name. The reply is a
    completion with its list of choices, or an exception of the client. *)
Record ChatCompletionMessageParam : Type := { role : str; content : str }.

Record request : Type := { messages : list ChatCompletionMessageParam; model : str }.

Module ChatCompletion.
Record Message : Type := { content : option str }.
Record Choice : Type := { message : Message }.
Record t : Type := { choices : list Choice }.
End ChatCompletion.

Inductive reply : Type :=
| Completed (completion : ChatCompletion.t)
| Failed (error_class : string).

(** The world outside the process: the provider, whose state is the list of
    requests it has received, and the files of the machine. The answer of the
    provider to a request may depend on the world, so the same request can be
    answered differently in two calls. *)
Record world : Type := { requests : list request; files : gmap str str }.

Definition OpenAI : Type := world → request → reply.

Definition send (req : request) (w : world) : world :=
  {| requests := requests w ++ [req]; files := files w |}.

(** Computations that may raise and may talk to the provider. *)
Definition M (A : Type) : Type := world → outcome A * world.

#[export] Instance M_ret : MRet M := λ A a w, (Return a, w).
#[export] Instance M_bind : MBind M := λ A B f m w,
  match m w with
  | (Return a, w') => f a w'
  | (Raise e, w') => (Raise e, w')
  end.

Definition lift {A} (o : outcome A) : M A := λ w, (o, w).

(** [client.chat.completions.create(messages=..., model=...)]. *)
Definition chat_completions_create (client : OpenAI)
    (messages : list ChatCompletionMessageParam) (model : str) : M ChatCompletion.t :=
  λ w,
    let req := {| messages := messages; model := model |} in
    (match client w req with
     | Completed completion => Return completion
     | Failed error_class => Raise (ProviderError error_class)
     end, send req w).

(** ** Module constants *)

(** [os.linesep] depends on the platform ([os.name]). *)
Inductive platform : Type := posix | nt.

Definition linesep (os : platform) : str :=
  match os with
  | posix => [10%N]
  | nt => [13%N; 10%N]
  end.

Definition openai_model : str := py "gpt-4o-2024-08-06".

Definition _multistage_system_prompt : str :=
  py "
You are an expert software and DevOps engineer who specializes in Docker and NodeJS backend applications.

Given a Nodejs project that contains a Docker image definition to containerize it, your goal is to reduce the size of the docker image as much as possible, while still keeping the code legible and developer-friendly.

As part of this request, your only task is to modify the given single-stage Dockerfile to adopt Multistage builds.
Multistage is beneficial because the final image produced (final stage) uses a slim base image and only contains things that we put in it.
Create a final stage in the Dockerfile which only contains the application source code, its dependencies (excluding " ++ dq ++
  py "devDependencies" ++ dq ++
  py " from package.json) and anything else you think is necessary for the app at runtime or relevant to the final image.

* The final stage must use a slim base image if possible. If the previous stage uses a specific version of NodeJS, make sure to use the same version.
* If possible, set the `NODE_ENV` environment variable to `production`. This should be done BEFORE running any commands related to nodejs or npm. This ensures that dev dependencies are not installed in the final stage.
* Do a fresh install of the dependencies (node_modules) in the final stage and exclude dev dependencies. Do not change the installation commands in the previous stage and don't copy node_modules from the previous stage.
* Try to keep your code changes as consistent with the original code as possible. For example, if the previous stage uses " ++ dq ++
  py "npm install" ++ dq ++
  py " for installing dependencies, don't replace it with " ++ dq ++
  py "npm ci" ++ dq ++
  py ". Try to use " ++ dq ++
  py "install" ++ dq ++
  py " only.
* If the previous stage contains some metadata such as LABEL statements, make sure to include them in the final stage as well, if you think it is relevant.
* Comments should be added only in the new stage that you're writing. Don't add any comments in the previous stage unless you need to make an important remark. But don't remove any comments that already exist.
* If the previous stage contains any `RUN` statements invoking any npm scripts like `npm run build`, the commands in this script will also be shared with you so you can understand its behaviour.
* Do not delete any statements originally present in the Dockerfile. If you don't understand what they're being used for (like custom scripts), just ignore them. Don't include them to the new stage.

After writing all the code, review it step-by-step and think what the final image would contain to ensure you didn't accidentally leave out anything important.

* Return only the Dockerfile code in your reply
* Do not include any additional formatting, such as markdown code blocks
".

Definition _multistage_user_prompt : str :=
  py "
Optimize this Dockerfile:

```
{dockerfile}
```
".

Definition _prompt_npm_scripts_invoked : str :=
  py "
-- Details of NPM scripts invoked --

NOTE:
- " ++ dq ++
  py "script" ++ dq ++
  py " is the npm script you see in the Dockerfile (eg- " ++ dq ++
  py "npm run test" ++ dq ++
  py ")
- " ++ dq ++
  py "commands" ++ dq ++
  py " is the set of commands defined inside package.json for the particular npm script.
  For example, if package.json is `{" ++ dq ++
  py "scripts" ++ dq ++
  py ": {" ++ dq ++
  py "test" ++ dq ++
  py ": " ++ dq ++
  py "gulp ." ++ dq ++
  py "}}`, then this field's value will be " ++ dq ++
  py "gulp ." ++ dq ++
  py " because the " ++ dq ++
  py "script" ++ dq ++
  py " invoked is " ++ dq ++
  py "test" ++ dq ++
  py ".
- the commands for all npm scripts are extracted from package.json.

LIST OF SCRIPTS:

".

(** ** AIService *)

Record AIService : Type := { _client : OpenAI }.

(** The f-string of one entry of the script list. *)
Definition description (i : nat) (script : gmap str str) : outcome str :=
  name ← getitem script (py "script");
  commands ← getitem script (py "commands");
  Return (str_of_nat (i + 1) ++ py ". script: `" ++ name ++ py "`" ++ nl ++
          py "commands: `" ++ commands ++ py "`" ++ nl).

(** Lines 63 to 76: the content of the user message. The script block is
    added when [scripts] is true, that is, not empty. *)
Definition render_user_prompt (os : platform) (dockerfile : str)
    (scripts : list (gmap str str)) : outcome str :=
  user_prompt ← format _multistage_user_prompt {[ py "dockerfile" := dockerfile ]};
  match scripts with
  | _ :: _ =>
      scripts_description ←
        for_range (length scripts) (λ scripts_description i,
          script ← item scripts i;
          description ← description i script;
          Return (scripts_description ++ [description])) [];
      let scripts_description := join (linesep os) scripts_description in
      Return (user_prompt ++ (_prompt_npm_scripts_invoked ++ scripts_description))
  | [] => Return user_prompt
  end.

(** Line 97: [response.strip().strip("```").strip()]. The argument of the
    second [strip] is a set of characters, here the backtick alone. *)
Definition sanitize (response : str) : str :=
  strip None (strip (Some (py "```")) (strip None response)).

Definition add_multistage_builds (os : platform) (self : AIService)
    (dockerfile : str) (scripts : list (gmap str str)) : M str :=
  user_prompt ← lift (render_user_prompt os dockerfile scripts);
  let messages :=
    [ {| role := py "system"; content := _multistage_system_prompt |};
      {| role := py "user"; content := user_prompt |} ] in
  completion ← chat_completions_create (_client self) messages openai_model;
  choice ← lift (item (ChatCompletion.choices completion) 0);
  let response := ChatCompletion.content (ChatCompletion.message choice) in
  response ←
    lift (match response with
          | Some text => Return (sanitize text)
          | None => Raise AttributeError
          end);
  mret response.

(** ** Vocabulary of the properties *)

(** Whether a string begins, or ends, with a character of a set, and whether
    all its characters belong to the set. *)
Definition starts_in (drop : char → bool) (s : str) : bool :=
  match s with
  | [] => false
  | c :: _ => drop c
  end.

Definition ends_in (drop : char → bool) (s : str) : bool :=
  starts_in drop (reverse s).

Definition all_in (drop : char → bool) (s : str) : Prop :=
  Forall (λ c, drop c = true) s.

(** The set of characters that [strip] is given on line 97, and the
    delimiter of a Markdown code fence. *)
Definition is_backtick (c : char) : bool := member c (py "```").

Definition fence : str := py "```".

(** The three strips of [sanitize] seen from one end of the string. *)
Definition sanitize_left (s : str) : str :=
  lstrip_by isspace (lstrip_by is_backtick (lstrip_by isspace s)).

Definition sanitize_right (s : str) : str :=
  rstrip_by isspace (rstrip_by is_backtick (rstrip_by isspace s)).

(** The user message without scripts: the directive line and the Dockerfile
    text in a fenced block. *)
Definition fenced (dockerfile : str) : str :=
  py "
Optimize this Dockerfile:

```
" ++ dockerfile ++ py "
```
".

(** The text of the entry numbered [n]. *)
Definition entry (n : nat) (name commands : str) : str :=
  str_of_nat n ++ py ". script: `" ++ name ++ py "`" ++ nl ++
  py "commands: `" ++ commands ++ py "`" ++ nl.

(** The entries of a script list, the first one made with index [i]. *)
Fixpoint descriptions (i : nat) (scripts : list (gmap str str)) : outcome (list str) :=
  match scripts with
  | [] => Return []
  | script :: rest =>
      d ← description i script;
      ds ← descriptions (S i) rest;
      Return (d :: ds)
  end.

(** A script descriptor has the keys [script] and [commands]. *)
Definition has_fields (script : gmap str str) : Prop :=
  is_Some (script !! py "script") ∧ is_Some (script !! py "commands").

Definition well_formed (scripts : list (gmap str str)) : Prop :=
  Forall has_fields scripts.

Definition descriptor (name commands : str) : gmap str str :=
  {[ py "script" := name; py "commands" := commands ]}.

(** The request that carries a rendered user message. *)
Definition request_of (user_prompt : str) : request :=
  {| messages :=
       [ {| role := py "system"; content := _multistage_system_prompt |};
         {| role := py "user"; content := user_prompt |} ];
     model := openai_model |}.

(** What lines 94 to 99 make of a reply. *)
Definition extract (r : reply) : outcome str :=
  match r with
  | Failed error_class => Raise (ProviderError error_class)
  | Completed completion =>
      match ChatCompletion.choices completion with
      | [] => Raise IndexError
      | choice :: _ =>
          match ChatCompletion.content (ChatCompletion.message choice) with
          | None => Raise AttributeError
          | Some text => Return (sanitize text)
          end
      end
  end.

(** The text of the first choice of a reply, when there is one. *)
Definition completion_text (r : reply) : option str :=
  match r with
  | Failed _ => None
  | Completed completion =>
      match ChatCompletion.choices completion with
      | [] => None
      | choice :: _ => ChatCompletion.content (ChatCompletion.message choice)
      end
  end.

(** The requests that a computation adds to those of the world it starts in. *)
Definition sent {A} (m : M A) (w : world) : list request :=
  drop (length (requests w)) (requests (snd (m w))).

(** Two clients and a world to run the function in. [canned] answers every
    request with one choice whose content is the given value. The reply of
    [warming_up] depends on the world: it fails until the provider has received
    a first request, and answers like [canned] afterwards. *)
Definition canned (text : option str) : AIService :=
  {| _client := λ _ _,
       Completed {| ChatCompletion.choices :=
         [ {| ChatCompletion.message := {| ChatCompletion.content := text |} |} ] |} |}.

Definition warming_up (text : option str) : AIService :=
  {| _client := λ w req,
       match requests w with
       | [] => Failed "RateLimitError"
       | _ :: _ => _client (canned text) w req
       end |}.

Definition empty_world : world := {| requests := []; files := ∅ |}.

(** The key that the first failing subscript of [description] names: the
    f-string reads [script["script"]] before [script["commands"]]. *)
Definition missing_key (script : gmap str str) : str :=
  match script !! py "script" with
  | None => py "script"
  | Some _ => py "commands"
  end.

(** A string has no whitespace and no backtick at either end. *)
Definition clean_ends (s : str) : Prop :=
  starts_in isspace s = false ∧ ends_in isspace s = false
  ∧ starts_in is_backtick s = false ∧ ends_in is_backtick s = false.

(** * Lemmas *)

Section strip_by.
Context (drop : char → bool).

Lemma lstrip_by_all pre s :
  all_in drop pre → lstrip_by drop (pre ++ s) = lstrip_by drop s.
Proof.
  induction 1 as [|c pre Hc _ IH]; simpl; [done|]. by rewrite Hc.
Qed.

Lemma lstrip_by_split s :
  ∃ pre, s = pre ++ lstrip_by drop s ∧ all_in drop pre.
Proof.
  induction s as [|c s [pre [Hs Hpre]]]; simpl.
  - exists []. split; [done|constructor].
  - destruct (drop c) eqn:Hc.
    + exists (c :: pre). split; [simpl; by f_equal|by constructor].
    + exists []. split; [done|constructor].
Qed.

Lemma starts_in_lstrip_by s : starts_in drop (lstrip_by drop s) = false.
Proof.
  induction s as [|c s IH]; simpl; [done|].
  destruct (drop c) eqn:Hc; [done|]. simpl. done.
Qed.

Lemma lstrip_by_id s : starts_in drop s = false → lstrip_by drop s = s.
Proof. destruct s as [|c s]; simpl; [done|]. by intros ->. Qed.

Lemma lstrip_by_length s : length (lstrip_by drop s) ≤ length s.
Proof.
  induction s as [|c s IH]; simpl; [done|].
  destruct (drop c); simpl; lia.
Qed.

Lemma lstrip_by_shorter s :
  starts_in drop s = true → length (lstrip_by drop s) < length s.
Proof.
  destruct s as [|c s]; simpl; [done|]. intros ->.
  pose proof (lstrip_by_length s). lia.
Qed.

(** Stripping on the left keeps the right end, unless nothing is left. *)
Lemma ends_in_lstrip_by s :
  ends_in drop s = false → ends_in drop (lstrip_by drop s) = false.
Proof.
  unfold ends_in. induction s as [|c s IH]; [done|]. cbn [lstrip_by].
  destruct (drop c) eqn:Hc; [|done].
  rewrite reverse_cons. intros H. apply IH.
  by destruct (reverse s).
Qed.

Lemma rstrip_by_all s post :
  all_in drop post → rstrip_by drop (s ++ post) = rstrip_by drop s.
Proof.
  intros Hpost. unfold rstrip_by. rewrite reverse_app, lstrip_by_all; [done|].
  by apply Forall_reverse.
Qed.

Lemma rstrip_by_split s :
  ∃ post, s = rstrip_by drop s ++ post ∧ all_in drop post.
Proof.
  destruct (lstrip_by_split (reverse s)) as [pre [Hs Hpre]].
  exists (reverse pre). split; [|by apply Forall_reverse].
  unfold rstrip_by. rewrite <- reverse_app, <- Hs. by rewrite reverse_involutive.
Qed.

Lemma ends_in_rstrip_by s : ends_in drop (rstrip_by drop s) = false.
Proof.
  unfold ends_in, rstrip_by. rewrite reverse_involutive. apply starts_in_lstrip_by.
Qed.

Lemma rstrip_by_id s : ends_in drop s = false → rstrip_by drop s = s.
Proof.
  unfold ends_in, rstrip_by. intros H. rewrite lstrip_by_id by done.
  apply reverse_involutive.
Qed.

Lemma rstrip_by_length s : length (rstrip_by drop s) ≤ length s.
Proof.
  unfold rstrip_by. rewrite length_reverse.
  etrans; [apply lstrip_by_length|]. by rewrite length_reverse.
Qed.

Lemma rstrip_by_shorter s :
  ends_in drop s = true → length (rstrip_by drop s) < length s.
Proof.
  unfold ends_in, rstrip_by. intros H. rewrite length_reverse.
  apply lstrip_by_shorter in H. by rewrite length_reverse in H.
Qed.

(** Stripping on the right keeps the left end. *)
Lemma starts_in_rstrip_by s :
  starts_in drop s = false → starts_in drop (rstrip_by drop s) = false.
Proof.
  intros H. pose proof (ends_in_lstrip_by (reverse s)) as H'.
  unfold ends_in in H'. rewrite reverse_involutive in H'.
  specialize (H' H). unfold rstrip_by.
  by destruct (reverse (lstrip_by drop (reverse s))).
Qed.

Lemma starts_in_strip_by s : starts_in drop (strip_by drop s) = false.
Proof. apply starts_in_rstrip_by, starts_in_lstrip_by. Qed.

Lemma ends_in_strip_by s : ends_in drop (strip_by drop s) = false.
Proof. apply ends_in_rstrip_by. Qed.

Lemma strip_by_id s :
  starts_in drop s = false → ends_in drop s = false → strip_by drop s = s.
Proof.
  intros Hl Hr. unfold strip_by. rewrite lstrip_by_id by done. by apply rstrip_by_id.
Qed.

Lemma strip_by_length s : length (strip_by drop s) ≤ length s.
Proof.
  unfold strip_by. etrans; [apply rstrip_by_length|apply lstrip_by_length].
Qed.

Lemma strip_by_shorter s :
  starts_in drop s = true ∨ ends_in drop s = true →
  length (strip_by drop s) < length s.
Proof.
  unfold strip_by. intros [H|H].
  - eapply Nat.le_lt_trans; [apply rstrip_by_length|by apply lstrip_by_shorter].
  - destruct (ends_in drop (lstrip_by drop s)) eqn:E.
    + eapply Nat.lt_le_trans; [by apply rstrip_by_shorter|apply lstrip_by_length].
    + destruct (starts_in drop s) eqn:Hs.
      * eapply Nat.le_lt_trans; [apply rstrip_by_length|by apply lstrip_by_shorter].
      * rewrite lstrip_by_id in E by done. congruence.
Qed.

Lemma strip_by_split s :
  ∃ pre post, s = pre ++ strip_by drop s ++ post ∧ all_in drop pre ∧ all_in drop post.
Proof.
  destruct (lstrip_by_split s) as [pre [Hs Hpre]].
  destruct (rstrip_by_split (lstrip_by drop s)) as [post [Ht Hpost]].
  exists pre, post. split; [|done]. unfold strip_by. by rewrite <- Ht.
Qed.
End strip_by.

(** ** Sanitization *)

Lemma sanitize_unfold x :
  sanitize x = strip_by isspace (strip_by is_backtick (strip_by isspace x)).
Proof. reflexivity. Qed.

Lemma sanitize_no_leading_space x : starts_in isspace (sanitize x) = false.
Proof. rewrite sanitize_unfold. apply starts_in_strip_by. Qed.

Lemma sanitize_no_trailing_space x : ends_in isspace (sanitize x) = false.
Proof. rewrite sanitize_unfold. apply ends_in_strip_by. Qed.

(** The fixed points of [sanitize] are the strings with no whitespace and no
    backtick at either end. *)
Lemma sanitize_id y :
  starts_in isspace y = false → ends_in isspace y = false →
  starts_in is_backtick y = false → ends_in is_backtick y = false →
  sanitize y = y.
Proof.
  intros Hsl Hsr Hbl Hbr. rewrite sanitize_unfold.
  rewrite (strip_by_id isspace y) by done.
  rewrite (strip_by_id is_backtick y) by done.
  by apply strip_by_id.
Qed.

Lemma sanitize_shorter y :
  starts_in isspace y = false → ends_in isspace y = false →
  starts_in is_backtick y = true ∨ ends_in is_backtick y = true →
  length (sanitize y) < length y.
Proof.
  intros Hsl Hsr Hb. rewrite sanitize_unfold.
  rewrite (strip_by_id isspace y) by done.
  eapply Nat.le_lt_trans; [apply strip_by_length|by apply strip_by_shorter].
Qed.

Lemma sanitize_split x :
  ∃ pre post, x = pre ++ sanitize x ++ post
    ∧ all_in (λ c, isspace c || is_backtick c) pre
    ∧ all_in (λ c, isspace c || is_backtick c) post.
Proof.
  destruct (strip_by_split isspace x) as (p1 & q1 & H1 & Hp1 & Hq1).
  destruct (strip_by_split is_backtick (strip_by isspace x)) as (p2 & q2 & H2 & Hp2 & Hq2).
  destruct (strip_by_split isspace (strip_by is_backtick (strip_by isspace x)))
    as (p3 & q3 & H3 & Hp3 & Hq3).
  exists (p1 ++ p2 ++ p3), (q3 ++ q2 ++ q1). split.
  - rewrite sanitize_unfold. rewrite H1 at 1. rewrite H2 at 1. rewrite H3 at 1.
    by rewrite <- !(assoc_L (++)).
  - unfold all_in in *. rewrite !Forall_app. repeat split;
      (eapply Forall_impl; [eassumption|]); simpl; intros c ->; by rewrite ?orb_true_r.
Qed.

(** ** The run of one call *)

Lemma add_multistage_builds_run os self dockerfile scripts w :
  add_multistage_builds os self dockerfile scripts w =
    match render_user_prompt os dockerfile scripts with
    | Raise e => (Raise e, w)
    | Return user_prompt =>
        (extract (_client self w (request_of user_prompt)), send (request_of user_prompt) w)
    end.
Proof.
  unfold add_multistage_builds, mbind, M_bind, lift, chat_completions_create, extract.
  destruct (render_user_prompt os dockerfile scripts) as [user_prompt|e]; [|done].
  fold (request_of user_prompt).
  destruct (_client self w (request_of user_prompt)) as [completion|cls]; [|done].
  destruct completion as [[|[[[text|]]] choices]]; done.
Qed.

(** ** Substrings *)

Lemma startswith_spec s sub : startswith s sub = true ↔ ∃ post, s = sub ++ post.
Proof.
  revert s. induction sub as [|a sub IH]; intros s; simpl.
  - split; [by exists s|done].
  - destruct s as [|b s].
    + split; [done|]. by intros [post ?].
    + rewrite andb_true_iff, N.eqb_eq, IH. split.
      * intros [-> [post ->]]. by exists post.
      * intros [post [= -> ->]]. split; [done|by exists post].
Qed.

Lemma contains_spec s sub :
  contains s sub = true ↔ ∃ pre post, s = pre ++ sub ++ post.
Proof.
  induction s as [|c s IH].
  - simpl. rewrite orb_false_r, startswith_spec. split.
    + intros [post ->]. by exists [], post.
    + intros (pre & post & H). destruct pre; [by exists post|done].
  - cbn [contains]. rewrite orb_true_iff, startswith_spec, IH. split.
    + intros [[post ->]|(pre & post & ->)]; [by exists [], post|by exists (c :: pre), post].
    + intros ([|c' pre] & post & H); [left; by exists post|].
      injection H as -> ->. right. by exists pre, post.
Qed.

Lemma contains_app_mono pre s post sub :
  contains s sub = true → contains (pre ++ s ++ post) sub = true.
Proof.
  rewrite !contains_spec. intros (p & q & ->).
  exists (pre ++ p), (q ++ post). by rewrite <- !(assoc_L (++)).
Qed.

Lemma contains_false_inside pre s post sub :
  contains (pre ++ s ++ post) sub = false → contains s sub = false.
Proof.
  intros H. destruct (contains s sub) eqn:E; [|done].
  by rewrite (contains_app_mono pre s post sub E) in H.
Qed.

Lemma contains_reverse s sub : contains (reverse s) (reverse sub) = contains s sub.
Proof.
  apply eq_true_iff_eq. rewrite !contains_spec. split.
  - intros (pre & post & H). exists (reverse post), (reverse pre).
    apply (f_equal reverse) in H. rewrite reverse_involutive in H.
    by rewrite H, !reverse_app, reverse_involutive, <- (assoc_L (++)).
  - intros (pre & post & ->). exists (reverse post), (reverse pre).
    by rewrite !reverse_app, <- (assoc_L (++)).
Qed.

Lemma contains_cons c s sub :
  contains (c :: s) sub = startswith (c :: s) sub || contains s sub.
Proof. reflexivity. Qed.

(** ** Rendering of the user message *)

Lemma format_user_prompt dockerfile :
  format _multistage_user_prompt {[ py "dockerfile" := dockerfile ]} = Return (fenced dockerfile).
Proof. vm_compute. reflexivity. Qed.

Lemma item_middle {A} (l1 l2 : list A) x : item (l1 ++ x :: l2) (length l1) = Return x.
Proof. unfold item. by rewrite list_lookup_middle. Qed.

Lemma for_each_descriptions todo : ∀ finished acc,
  for_each (λ scripts_description i,
      script ← item (finished ++ todo) i;
      description ← description i script;
      Return (scripts_description ++ [description]))
    (seq (length finished) (length todo)) acc
  = (ds ← descriptions (length finished) todo; Return (acc ++ ds)).
Proof.
  induction todo as [|script todo IH]; intros finished acc.
  - simpl. by rewrite (right_id_L [] (++)).
  - cbn [length seq for_each descriptions].
    rewrite item_middle.
    cbn [mbind outcome_bind].
    destruct (description (length finished) script) as [d|e]; [|done].
    cbn [mbind outcome_bind].
    specialize (IH (finished ++ [script]) (acc ++ [d])).
    rewrite <- (assoc_L (++)), length_app in IH. simpl in IH.
    rewrite Nat.add_1_r in IH. rewrite IH.
    destruct (descriptions (S (length finished)) todo) as [ds|e]; [|done].
    cbn [mbind outcome_bind]. by rewrite <- (assoc_L (++)).
Qed.

Lemma render_user_prompt_unfold os dockerfile scripts :
  render_user_prompt os dockerfile scripts =
    match scripts with
    | [] => Return (fenced dockerfile)
    | _ :: _ =>
        ds ← descriptions 0 scripts;
        Return (fenced dockerfile ++ _prompt_npm_scripts_invoked ++ join (linesep os) ds)
    end.
Proof.
  unfold render_user_prompt. rewrite format_user_prompt. cbn [mbind outcome_bind].
  destruct scripts as [|script scripts]; [done|].
  unfold for_range.
  pose proof (for_each_descriptions (script :: scripts) [] []) as Hloop.
  cbn [app length] in Hloop |- *. rewrite Hloop.
  by destruct (descriptions 0 (script :: scripts)).
Qed.

Lemma descriptions_well_formed scripts : ∀ k,
  well_formed scripts →
  ∃ entries,
    descriptions k scripts = Return entries
    ∧ length entries = length scripts
    ∧ ∀ i script, scripts !! i = Some script →
        ∃ name commands,
          script !! py "script" = Some name ∧ script !! py "commands" = Some commands
          ∧ entries !! i = Some (entry (k + i + 1) name commands).
Proof.
  induction scripts as [|script scripts IH]; intros k Hwf.
  - exists []. by repeat split.
  - apply Forall_cons in Hwf as [[[name Hn] [commands Hc]] Hwf].
    destruct (IH (S k) Hwf) as (entries & Hds & Hlen & Hentries).
    exists (entry (k + 1) name commands :: entries). split; [|split].
    + cbn [descriptions]. unfold description, getitem. rewrite Hn, Hc.
      cbn [mbind outcome_bind]. rewrite Hds. done.
    + simpl. by rewrite Hlen.
    + intros [|i] script' Hi.
      * injection Hi as <-. exists name, commands. rewrite Nat.add_0_r. done.
      * destruct (Hentries i script' Hi) as (n & c & ? & ? & He).
        exists n, c. repeat split; [done..|].
        replace (k + S i + 1) with (S k + i + 1) by lia. done.
Qed.

Lemma descriptions_raise scripts : ∀ k e,
  descriptions k scripts = Raise e → ∃ key, e = KeyError key.
Proof.
  induction scripts as [|script scripts IH]; intros k e; [done|].
  cbn [descriptions]. unfold description, getitem.
  destruct (script !! py "script"); cbn [mbind outcome_bind]; [|intros [= <-]; eauto].
  destruct (script !! py "commands"); cbn [mbind outcome_bind]; [|intros [= <-]; eauto].
  destruct (descriptions (S k) scripts) eqn:Hds; cbn [mbind outcome_bind]; [done|].
  intros [= <-]. eauto.
Qed.

Lemma render_user_prompt_raise os dockerfile scripts e :
  render_user_prompt os dockerfile scripts = Raise e → ∃ key, e = KeyError key.
Proof.
  rewrite render_user_prompt_unfold. destruct scripts as [|script scripts]; [done|].
  destruct (descriptions 0 (script :: scripts)) eqn:Hds; cbn [mbind outcome_bind]; [done|].
  intros [= <-]. eauto using descriptions_raise.
Qed.

Lemma render_user_prompt_well_formed os dockerfile scripts :
  well_formed scripts → ∃ user_prompt, render_user_prompt os dockerfile scripts = Return user_prompt.
Proof.
  intros Hwf. rewrite render_user_prompt_unfold. destruct scripts as [|script scripts]; [eauto|].
  destruct (descriptions_well_formed (script :: scripts) 0 Hwf) as (entries & -> & _).
  cbn [mbind outcome_bind]. eauto.
Qed.

Lemma extract_completion_text r text :
  completion_text r = Some text → extract r = Return (sanitize text).
Proof.
  destruct r as [[[|[[content]] choices]]|cls]; simpl; [done| |done]. by intros ->.
Qed.

Lemma extract_raise r e :
  extract r = Raise e → e = IndexError ∨ e = AttributeError ∨ ∃ cls, e = ProviderError cls.
Proof.
  destruct r as [[[|[[[text|]]] choices]]|cls]; simpl; [| | |]; intros [= <-]; eauto.
Qed.

Lemma add_multistage_builds_returns os self dockerfile scripts w user_prompt text :
  render_user_prompt os dockerfile scripts = Return user_prompt →
  completion_text (_client self w (request_of user_prompt)) = Some text →
  add_multistage_builds os self dockerfile scripts w
    = (Return (sanitize text), send (request_of user_prompt) w).
Proof.
  intros Hrender Htext. rewrite add_multistage_builds_run, Hrender.
  by rewrite (extract_completion_text _ _ Htext).
Qed.

(** No path through the function raises one of the two failure kinds that
    only the system description names. *)
Lemma add_multistage_builds_raise os self dockerfile scripts w e :
  fst (add_multistage_builds os self dockerfile scripts w) = Raise e →
  e ≠ InputError ∧ e ≠ SanitizationError.
Proof.
  rewrite add_multistage_builds_run.
  destruct (render_user_prompt os dockerfile scripts) as [user_prompt|e'] eqn:Hrender; simpl.
  - intros [->|[->|[cls ->]]]%extract_raise; done.
  - intros [= <-]. apply render_user_prompt_raise in Hrender as [key ->]. done.
Qed.

(** The fixed text around the Dockerfile cannot begin or end an occurrence of
    the header of the script block: an occurrence lies between the two
    newlines that delimit the Dockerfile text. *)
Lemma header_not_across_directive t :
  contains (py "
Optimize this Dockerfile:

```" ++ t) _prompt_npm_scripts_invoked = contains t _prompt_npm_scripts_invoked.
Proof.
  assert (∃ rest, _prompt_npm_scripts_invoked = 10%N :: 45%N :: rest) as [rest ->]
    by (eexists; vm_compute; reflexivity).
  reflexivity.
Qed.

Lemma header_not_across_closing_fence t :
  contains (t ++ py "```
") _prompt_npm_scripts_invoked = contains t _prompt_npm_scripts_invoked.
Proof.
  rewrite <- (contains_reverse (t ++ _)), <- (contains_reverse t), reverse_app.
  assert (∃ rest, reverse _prompt_npm_scripts_invoked = 10%N :: 10%N :: rest) as [rest ->]
    by (eexists; vm_compute; reflexivity).
  reflexivity.
Qed.

Lemma fenced_split dockerfile :
  fenced dockerfile = py "
Optimize this Dockerfile:

```" ++ (nl ++ dockerfile ++ nl) ++ py "```
".
Proof.
  unfold fenced, nl. rewrite <- !(assoc_L (++)). reflexivity.
Qed.

(** ** Stripping the two ends independently *)

Section two_sets.
Context (p q : char → bool).

Lemma lstrip_by_snoc t c :
  lstrip_by q (t ++ [c]) =
    match lstrip_by q t with
    | [] => if q c then [] else [c]
    | _ :: _ => lstrip_by q t ++ [c]
    end.
Proof.
  induction t as [|a t IH]; simpl; [done|].
  destruct (q a); [done|done].
Qed.

Lemma rstrip_by_cons c s :
  rstrip_by q (c :: s) =
    match rstrip_by q s with
    | [] => if q c then [] else [c]
    | _ :: _ => c :: rstrip_by q s
    end.
Proof.
  unfold rstrip_by. rewrite reverse_cons, lstrip_by_snoc.
  destruct (lstrip_by q (reverse s)) as [|a l]; [by destruct (q c)|].
  rewrite reverse_app, reverse_singleton. simpl.
  rewrite reverse_cons. by destruct (reverse l).
Qed.

(** Stripping on the left and stripping on the right commute. *)
Lemma lstrip_by_rstrip_by s :
  lstrip_by p (rstrip_by q s) = rstrip_by q (lstrip_by p s).
Proof.
  induction s as [|c s IH]; [done|].
  cbn [lstrip_by]. rewrite rstrip_by_cons.
  destruct (rstrip_by q s) as [|a r] eqn:Hr.
  - simpl in IH. destruct (p c) eqn:Hp.
    + rewrite <- IH. destruct (q c); simpl; by rewrite ?Hp.
    + rewrite rstrip_by_cons, Hr. destruct (q c); simpl; by rewrite ?Hp.
  - cbn [lstrip_by]. destruct (p c) eqn:Hp; [done|].
    by rewrite rstrip_by_cons, Hr.
Qed.
End two_sets.

Lemma lstrip_by_suffix p s : lstrip_by p s `suffix_of` s.
Proof. destruct (lstrip_by_split p s) as [pre [Hs _]]. by exists pre. Qed.

Lemma rstrip_by_prefix p s : rstrip_by p s `prefix_of` s.
Proof. destruct (rstrip_by_split p s) as [post [Hs _]]. by exists post. Qed.

(** ** The two ends of [sanitize] *)

Lemma is_backtick_spec c : is_backtick c = true ↔ c = backtick.
Proof.
  unfold is_backtick, member, backtick. change (py "```") with [96%N; 96%N; 96%N].
  simpl. rewrite !orb_true_iff, N.eqb_eq.
  split; [by intros [?|[?|[?|?]]]|by left].
Qed.

Lemma backtick_not_space c : is_backtick c = true → isspace c = false.
Proof. by intros ->%is_backtick_spec. Qed.

Lemma sanitize_ends x :
  sanitize x = sanitize_right (sanitize_left x).
Proof.
  rewrite sanitize_unfold. unfold sanitize_right, sanitize_left, strip_by.
  rewrite (lstrip_by_rstrip_by is_backtick isspace (lstrip_by isspace x)).
  rewrite (lstrip_by_rstrip_by isspace is_backtick).
  by rewrite (lstrip_by_rstrip_by isspace isspace).
Qed.

Lemma sanitize_right_reverse s :
  sanitize_right s = reverse (sanitize_left (reverse s)).
Proof.
  unfold sanitize_right, sanitize_left, rstrip_by. by rewrite !reverse_involutive.
Qed.

Lemma sanitize_left_suffix s : sanitize_left s `suffix_of` s.
Proof.
  unfold sanitize_left.
  etrans; [apply lstrip_by_suffix|]. etrans; [apply lstrip_by_suffix|]. apply lstrip_by_suffix.
Qed.

Lemma sanitize_right_prefix s : sanitize_right s `prefix_of` s.
Proof.
  unfold sanitize_right.
  etrans; [apply rstrip_by_prefix|]. etrans; [apply rstrip_by_prefix|]. apply rstrip_by_prefix.
Qed.

(** A run of whitespace and then a run of backticks in front of a text are
    removed whole. *)
Lemma sanitize_left_wrapped ws b t :
  all_in isspace ws → all_in is_backtick b →
  sanitize_left (ws ++ b ++ t) `suffix_of` t.
Proof.
  intros Hws Hb. unfold sanitize_left. rewrite lstrip_by_all by done.
  destruct Hb as [|c b Hc Hb].
  - apply (sanitize_left_suffix t).
  - rewrite (lstrip_by_id isspace ((c :: b) ++ t)) by (simpl; by apply backtick_not_space).
    rewrite (lstrip_by_all is_backtick (c :: b)) by by constructor.
    etrans; [apply lstrip_by_suffix|apply lstrip_by_suffix].
Qed.

Lemma sanitize_right_wrapped t b ws :
  all_in is_backtick b → all_in isspace ws →
  sanitize_right (t ++ b ++ ws) `prefix_of` t.
Proof.
  intros Hb Hws. rewrite sanitize_right_reverse.
  apply prefix_suffix_reverse. rewrite reverse_involutive.
  rewrite !reverse_app, <- (assoc_L (++)).
  apply sanitize_left_wrapped; by apply Forall_reverse.
Qed.

Lemma sanitize_right_all b ws :
  all_in is_backtick b → all_in isspace ws → sanitize_right (b ++ ws) = [].
Proof.
  intros Hb Hws. pose proof (sanitize_right_wrapped [] b ws Hb Hws) as H.
  by apply prefix_nil_inv in H.
Qed.

(** A text wrapped in backticks and whitespace is sanitized to a part of the
    text. *)
Lemma sanitize_wrapped ws1 b1 body b2 ws2 :
  all_in isspace ws1 → all_in is_backtick b1 →
  all_in is_backtick b2 → all_in isspace ws2 →
  ∃ pre post, body = pre ++ sanitize (ws1 ++ b1 ++ body ++ b2 ++ ws2) ++ post.
Proof.
  intros Hws1 Hb1 Hb2 Hws2. rewrite sanitize_ends.
  destruct (sanitize_left_wrapped ws1 b1 (body ++ b2 ++ ws2) Hws1 Hb1) as [k Hk].
  set (u := sanitize_left _) in *. clearbody u.
  apply app_eq_inv in Hk as [(k' & -> & Hu)|(k' & -> & Hu)].
  - (* [u] begins in the body *)
    subst u. destruct (sanitize_right_wrapped k' b2 ws2 Hb2 Hws2) as [post Hpost].
    exists k, post. by rewrite <- Hpost.
  - (* [u] begins after the body *)
    apply app_eq_inv in Hu as [(k'' & Hb & ->)|(k'' & _ & Hw)].
    + exists [], body. rewrite (sanitize_right_all k'' ws2); [done| |done].
      unfold all_in in *. rewrite Hb in Hb2. by apply Forall_app in Hb2 as [_ ?].
    + exists [], body. pose proof (sanitize_right_all [] u) as Hall. cbn [app] in Hall.
      rewrite Hall; [done|constructor|].
      unfold all_in in *. rewrite Hw in Hws2. by apply Forall_app in Hws2 as [_ ?].
Qed.

Lemma starts_in_prefix q r t :
  r `prefix_of` t → starts_in q r = true → starts_in q t = true.
Proof. intros [k ->]. by destruct r. Qed.

Lemma ends_in_suffix q r t :
  r `suffix_of` t → ends_in q r = true → ends_in q t = true.
Proof.
  unfold ends_in. intros H%suffix_prefix_reverse. by apply starts_in_prefix.
Qed.

(** The last strip leaves a backtick at an end only behind whitespace. *)
Lemma backtick_left_behind_space t :
  starts_in is_backtick t = false →
  starts_in is_backtick (strip_by isspace t) = true → starts_in isspace t = true.
Proof.
  intros Ht Hr. destruct (starts_in isspace t) eqn:Hs; [done|].
  unfold strip_by in Hr. rewrite (lstrip_by_id isspace t Hs) in Hr.
  apply (starts_in_prefix _ _ t) in Hr; [congruence|apply rstrip_by_prefix].
Qed.

Lemma backtick_right_behind_space t :
  ends_in is_backtick t = false →
  ends_in is_backtick (strip_by isspace t) = true → ends_in isspace t = true.
Proof.
  intros Ht Hr. destruct (ends_in isspace t) eqn:Hs; [done|].
  unfold strip_by in Hr. rewrite <- lstrip_by_rstrip_by in Hr.
  rewrite (rstrip_by_id isspace t Hs) in Hr.
  apply (ends_in_suffix _ _ t) in Hr; [congruence|apply lstrip_by_suffix].
Qed.

(** * The claims *)

(** C1. The completion that wraps [FROM node] in a fence tagged [dockerfile]
    is not returned as [FROM node]: the fence markers and the surrounding
    whitespace are removed, the language tag stays in the result. *)
Theorem C1_language_tag_survives :
  sanitize (py "```dockerfile
FROM node
```") = py "dockerfile
FROM node"
  ∧ fst (add_multistage_builds posix (canned (Some (py "```dockerfile
FROM node
```"))) (py "FROM node:18") [] empty_world)
    = Return (py "dockerfile
FROM node")
  ∧ sanitize (py "```dockerfile
FROM node
```") ≠ py "FROM node".
Proof. split; [|split]; [vm_compute; reflexivity..|vm_compute; discriminate]. Qed.

(** C2, as stated, fails: with an empty Dockerfile and no scripts the call
    does not raise [InputError]; it sends one request, whose user message has
    an empty fenced block, and returns the sanitized completion. *)
Lemma C2_empty_dockerfile_reaches_provider :
  add_multistage_builds posix (canned (Some (py "FROM node"))) [] [] empty_world
  = (Return (py "FROM node"),
     {| requests :=
          [ {| messages :=
                 [ {| role := py "system"; content := _multistage_system_prompt |};
                   {| role := py "user"; content := py "
Optimize this Dockerfile:

```

```
" |} ];
               model := py "gpt-4o-2024-08-06" |} ];
        files := ∅ |})
  ∧ fst (add_multistage_builds posix (canned (Some (py "FROM node"))) [] [] empty_world)
    ≠ Raise InputError
  ∧ sent (add_multistage_builds posix (canned (Some (py "FROM node"))) [] []) empty_world ≠ [].
Proof. split; [|split]; [vm_compute; reflexivity|vm_compute; discriminate..]. Qed.

(** C2, amended. There is no validation of the Dockerfile text: for the empty
    string and script descriptors that have their two keys, the user message
    is rendered around the empty text, exactly one request is sent, and the
    outcome is not [InputError]. *)
Theorem C2_empty_dockerfile_is_sent os self scripts w :
  well_formed scripts →
  ∃ user_prompt,
    render_user_prompt os [] scripts = Return user_prompt
    ∧ startswith user_prompt (fenced []) = true
    ∧ snd (add_multistage_builds os self [] scripts w) = send (request_of user_prompt) w
    ∧ fst (add_multistage_builds os self [] scripts w) ≠ Raise InputError.
Proof.
  intros Hwf.
  destruct (render_user_prompt_well_formed os [] scripts Hwf) as [user_prompt Hrender].
  exists user_prompt. split; [done|]. split; [|split].
  - rewrite render_user_prompt_unfold in Hrender. apply startswith_spec.
    destruct scripts as [|script scripts].
    + injection Hrender as <-. exists []. by rewrite (right_id_L [] (++)).
    + destruct (descriptions 0 (script :: scripts)) as [ds|e]; [|done].
      injection Hrender as <-. eauto.
  - by rewrite add_multistage_builds_run, Hrender.
  - intros H. by apply add_multistage_builds_raise in H as [? _].
Qed.

Lemma C2_empty_dockerfile_is_sent_witness :
  ∃ user_prompt,
    render_user_prompt posix [] [descriptor (py "build") (py "tsc")] = Return user_prompt
    ∧ startswith user_prompt (fenced []) = true
    ∧ snd (add_multistage_builds posix (canned None) [] [descriptor (py "build") (py "tsc")] empty_world)
      = send (request_of user_prompt) empty_world
    ∧ fst (add_multistage_builds posix (canned None) [] [descriptor (py "build") (py "tsc")] empty_world)
      ≠ Raise InputError.
Proof.
  apply (C2_empty_dockerfile_is_sent posix (canned None) [descriptor (py "build") (py "tsc")] empty_world).
  repeat constructor; eexists; vm_compute; reflexivity.
Defined.

(** C3, as stated, fails: an empty content is returned as the empty string,
    and a null content ends in [AttributeError], not in [SanitizationError]. *)
Lemma C3_empty_content_is_returned :
  fst (add_multistage_builds posix (canned (Some [])) (py "FROM node") [] empty_world) = Return []
  ∧ fst (add_multistage_builds posix (canned None) (py "FROM node") [] empty_world)
    = Raise AttributeError
  ∧ fst (add_multistage_builds posix (canned (Some [])) (py "FROM node") [] empty_world)
    ≠ Raise SanitizationError
  ∧ fst (add_multistage_builds posix (canned None) (py "FROM node") [] empty_world)
    ≠ Raise SanitizationError.
Proof. repeat split; vm_compute; (reflexivity || discriminate). Qed.

(** C3, amended. When the first choice of the completion has a null content
    the call ends in [AttributeError], raised by [strip] on [None] after the
    request was sent; when the content is the empty string the call returns the
    empty string. In neither case is the outcome [SanitizationError]. *)
Theorem C3_null_or_empty_content os self dockerfile scripts w user_prompt choice choices :
  render_user_prompt os dockerfile scripts = Return user_prompt →
  _client self w (request_of user_prompt)
    = Completed {| ChatCompletion.choices := choice :: choices |} →
  (ChatCompletion.content (ChatCompletion.message choice) = None →
     add_multistage_builds os self dockerfile scripts w
       = (Raise AttributeError, send (request_of user_prompt) w))
  ∧ (ChatCompletion.content (ChatCompletion.message choice) = Some [] →
     add_multistage_builds os self dockerfile scripts w
       = (Return [], send (request_of user_prompt) w))
  ∧ fst (add_multistage_builds os self dockerfile scripts w) ≠ Raise SanitizationError.
Proof.
  intros Hrender Hreply. split; [|split].
  - intros Hnone. rewrite add_multistage_builds_run, Hrender, Hreply. simpl. by rewrite Hnone.
  - intros Hempty. rewrite add_multistage_builds_run, Hrender, Hreply. simpl. by rewrite Hempty.
  - intros H. by apply add_multistage_builds_raise in H as [_ ?].
Qed.

Lemma C3_null_or_empty_content_witness :
  add_multistage_builds posix (canned None) (py "FROM node") [] empty_world
  = (Raise AttributeError, send (request_of (fenced (py "FROM node"))) empty_world).
Proof.
  refine (proj1 (C3_null_or_empty_content posix (canned None) (py "FROM node") [] empty_world
    (fenced (py "FROM node"))
    {| ChatCompletion.message := {| ChatCompletion.content := None |} |} [] _ _) _);
    vm_compute; reflexivity.
Defined.

(** C4, as stated, fails: an entry is not one line, and consecutive entries
    are not one newline apart. On POSIX the entry for [build] has [commands]
    on a line of its own, and an empty line stands between two entries. *)
Lemma C4_entry_is_two_lines :
  ∃ user_prompt,
    render_user_prompt posix (py "FROM node")
      [descriptor (py "build") (py "tsc"); descriptor (py "test") (py "jest")]
    = Return user_prompt
    ∧ contains user_prompt (py "1. script: `build` commands: `tsc`") = false
    ∧ contains user_prompt (py "1. script: `build`
commands: `tsc`

2. script: `test`
commands: `jest`
") = true.
Proof. eexists. split; [vm_compute; reflexivity|]. split; vm_compute; reflexivity. Qed.

(** C4, amended. For a non-empty list of script descriptors that have their
    two keys, the user message is the fenced Dockerfile, the fixed header, and
    one entry per descriptor, in order and numbered from 1, the entries joined
    with [os.linesep]. Entry [i] is two lines, each ended by a newline: the
    number, [. script: ] and the script name between backticks, then
    [commands: ] and the commands between backticks. *)
Theorem C4_numbered_entries os dockerfile scripts :
  scripts ≠ [] →
  well_formed scripts →
  ∃ entries,
    render_user_prompt os dockerfile scripts
      = Return (fenced dockerfile ++ _prompt_npm_scripts_invoked ++ join (linesep os) entries)
    ∧ length entries = length scripts
    ∧ ∀ i script, scripts !! i = Some script →
        ∃ name commands,
          script !! py "script" = Some name ∧ script !! py "commands" = Some commands
          ∧ entries !! i
            = Some (str_of_nat (i + 1) ++ py ". script: `" ++ name ++ py "`" ++ nl ++
                    py "commands: `" ++ commands ++ py "`" ++ nl).
Proof.
  intros Hne Hwf.
  destruct (descriptions_well_formed scripts 0 Hwf) as (entries & Hds & Hlen & Hentries).
  exists entries. split; [|split; [done|]].
  - rewrite render_user_prompt_unfold. destruct scripts; [done|]. by rewrite Hds.
  - intros i script Hi. destruct (Hentries i script Hi) as (name & commands & ? & ? & ?).
    by exists name, commands.
Qed.

Lemma C4_numbered_entries_witness :
  ∃ entries,
    render_user_prompt nt (py "FROM node") [descriptor (py "build") (py "tsc")]
      = Return (fenced (py "FROM node") ++ _prompt_npm_scripts_invoked ++ join (linesep nt) entries)
    ∧ length entries = 1
    ∧ ∀ i script, [descriptor (py "build") (py "tsc")] !! i = Some script →
        ∃ name commands,
          script !! py "script" = Some name ∧ script !! py "commands" = Some commands
          ∧ entries !! i
            = Some (str_of_nat (i + 1) ++ py ". script: `" ++ name ++ py "`" ++ nl ++
                    py "commands: `" ++ commands ++ py "`" ++ nl).
Proof.
  apply (C4_numbered_entries nt (py "FROM node") [descriptor (py "build") (py "tsc")]).
  - discriminate.
  - repeat constructor; eexists; vm_compute; reflexivity.
Defined.

(** C5, as stated, fails: the Dockerfile text is embedded as it is, so a
    Dockerfile that contains the text of the header brings it into the user
    message. *)
Lemma C5_header_inside_dockerfile :
  _prompt_npm_scripts_invoked ≠ []
  ∧ ∃ user_prompt,
      render_user_prompt posix _prompt_npm_scripts_invoked [] = Return user_prompt
      ∧ contains user_prompt _prompt_npm_scripts_invoked = true.
Proof.
  split; [vm_compute; discriminate|].
  eexists. split; [vm_compute; reflexivity|]. vm_compute. reflexivity.
Qed.

(** C5, amended. Without scripts the user message is exactly the directive
    line and the Dockerfile text inside the fenced block, nothing after the
    closing fence; the header of the script block occurs in it exactly when it
    occurs in the Dockerfile text with its two delimiting newlines. *)
Theorem C5_fenced_dockerfile_only os dockerfile :
  render_user_prompt os dockerfile []
    = Return (py "
Optimize this Dockerfile:

```
" ++ dockerfile ++ py "
```
")
  ∧ contains (py "
Optimize this Dockerfile:

```
" ++ dockerfile ++ py "
```
") _prompt_npm_scripts_invoked
    = contains (nl ++ dockerfile ++ nl) _prompt_npm_scripts_invoked.
Proof.
  split; [by rewrite render_user_prompt_unfold|].
  fold (fenced dockerfile). rewrite fenced_split.
  by rewrite header_not_across_directive, header_not_across_closing_fence.
Qed.

(** C6, as stated, fails: not every call sends something. A script dict
    without the key [commands] makes the f-string raise [KeyError] before the
    messages are built, and the provider receives no request. *)
Lemma C6_nothing_sent_without_a_key :
  add_multistage_builds posix (canned (Some (py "FROM node"))) (py "FROM node:18")
    [ {[ py "script" := py "test" ]} ] empty_world
  = (Raise (KeyError (py "commands")), empty_world)
  ∧ sent (add_multistage_builds posix (canned (Some (py "FROM node"))) (py "FROM node:18")
            [ {[ py "script" := py "test" ]} ]) empty_world = [].
Proof. split; vm_compute; reflexivity. Qed.

(** C6, amended. A call with script descriptors that have their two keys
    sends one request, with two messages: the system message, whose content is
    the constant [_multistage_system_prompt], then the user message with the
    rendered prompt. Whatever the inputs, a request that the call sends has
    these two messages. *)
Theorem C6_system_then_user os self dockerfile scripts w :
  (well_formed scripts →
   ∃ user_prompt,
     render_user_prompt os dockerfile scripts = Return user_prompt
     ∧ sent (add_multistage_builds os self dockerfile scripts) w
       = [ {| messages :=
                [ {| role := py "system"; content := _multistage_system_prompt |};
                  {| role := py "user"; content := user_prompt |} ];
              model := openai_model |} ])
  ∧ (∀ req, req ∈ sent (add_multistage_builds os self dockerfile scripts) w →
       ∃ user_prompt,
         messages req
         = [ {| role := py "system"; content := _multistage_system_prompt |};
             {| role := py "user"; content := user_prompt |} ]).
Proof.
  unfold sent. rewrite add_multistage_builds_run. split.
  - intros Hwf.
    destruct (render_user_prompt_well_formed os dockerfile scripts Hwf) as [user_prompt Hrender].
    exists user_prompt. split; [done|]. rewrite Hrender. simpl.
    by rewrite drop_app_length.
  - intros req. destruct (render_user_prompt os dockerfile scripts) as [user_prompt|e]; simpl.
    + rewrite drop_app_length. intros ->%list_elem_of_singleton. by exists user_prompt.
    + rewrite drop_all. by intros ?%elem_of_nil.
Qed.

Lemma C6_system_then_user_witness :
  ∃ user_prompt,
    render_user_prompt posix (py "FROM node") [descriptor (py "build") (py "tsc")]
      = Return user_prompt
    ∧ sent (add_multistage_builds posix (canned None) (py "FROM node")
              [descriptor (py "build") (py "tsc")]) empty_world
      = [ {| messages :=
               [ {| role := py "system"; content := _multistage_system_prompt |};
                 {| role := py "user"; content := user_prompt |} ];
             model := openai_model |} ].
Proof.
  apply (C6_system_then_user posix (canned None) (py "FROM node")
           [descriptor (py "build") (py "tsc")] empty_world).
  repeat constructor; eexists; vm_compute; reflexivity.
Defined.

(** C7, as stated, fails: a backtick behind whitespace survives the first
    pass and is removed by the second. *)
Lemma C7_second_pass_strips_more :
  sanitize (py "` `a") = py "`a"
  ∧ sanitize (sanitize (py "` `a")) = py "a"
  ∧ sanitize (sanitize (py "` `a")) ≠ sanitize (py "` `a").
Proof. split; [|split]; [vm_compute; reflexivity..|vm_compute; discriminate]. Qed.

(** C7, amended. A second pass of [sanitize] changes nothing exactly when the
    first pass left no backtick at either end of its result. *)
Theorem C7_idempotent_iff_no_backtick_left x :
  sanitize (sanitize x) = sanitize x
  ↔ starts_in is_backtick (sanitize x) = false ∧ ends_in is_backtick (sanitize x) = false.
Proof.
  pose proof (sanitize_no_leading_space x) as Hl.
  pose proof (sanitize_no_trailing_space x) as Hr.
  split.
  - intros Hid.
    destruct (starts_in is_backtick (sanitize x)) eqn:Hbl;
      [|destruct (ends_in is_backtick (sanitize x)) eqn:Hbr; [|done]];
      (assert (length (sanitize (sanitize x)) < length (sanitize x)) as Hlt
         by (apply sanitize_shorter; auto); rewrite Hid in Hlt; lia).
  - intros [Hbl Hbr]. by apply sanitize_id.
Qed.

(** C8, as stated, fails: a fence that is not at an end of the completion
    stays in the result. *)
Lemma C8_inner_fence_is_returned :
  ∃ r,
    fst (add_multistage_builds posix (canned (Some (py "Here is the Dockerfile:
```dockerfile
FROM node
```"))) (py "FROM node:18") [] empty_world) = Return r
    ∧ r = py "Here is the Dockerfile:
```dockerfile
FROM node"
    ∧ contains r fence = true.
Proof. eexists. split; [vm_compute; reflexivity|]. split; vm_compute; reflexivity. Qed.

(** C8, amended. When the completion is a body with no triple backtick in
    it, between a run of backticks on each side and whitespace around them, the
    returned string has no triple backtick. *)
Theorem C8_wrapped_body_has_no_fence os self dockerfile scripts w user_prompt
    ws1 b1 body b2 ws2 :
  render_user_prompt os dockerfile scripts = Return user_prompt →
  completion_text (_client self w (request_of user_prompt))
    = Some (ws1 ++ b1 ++ body ++ b2 ++ ws2) →
  all_in isspace ws1 → all_in is_backtick b1 →
  all_in is_backtick b2 → all_in isspace ws2 →
  contains body fence = false →
  ∃ r,
    fst (add_multistage_builds os self dockerfile scripts w) = Return r
    ∧ contains r fence = false.
Proof.
  intros Hrender Htext Hws1 Hb1 Hb2 Hws2 Hbody.
  exists (sanitize (ws1 ++ b1 ++ body ++ b2 ++ ws2)). split.
  - by rewrite (add_multistage_builds_returns _ _ _ _ _ _ _ Hrender Htext).
  - destruct (sanitize_wrapped ws1 b1 body b2 ws2) as (pre & post & Hsplit); [done..|].
    rewrite Hsplit in Hbody. by apply contains_false_inside in Hbody.
Qed.

Lemma C8_wrapped_body_has_no_fence_witness :
  ∃ r,
    fst (add_multistage_builds posix (canned (Some (py "```dockerfile
FROM node
```"))) (py "FROM node:18") [] empty_world) = Return r
    ∧ contains r fence = false.
Proof.
  apply (C8_wrapped_body_has_no_fence posix _ (py "FROM node:18") [] empty_world
           (fenced (py "FROM node:18")) [] (py "```") (py "dockerfile
FROM node
") (py "```") []).
  - vm_compute. reflexivity.
  - vm_compute. reflexivity.
  - constructor.
  - repeat constructor.
  - repeat constructor.
  - constructor.
  - vm_compute. reflexivity.
Defined.

(** C9. The outcome of a call is determined by the Dockerfile, the scripts
    and the reply of the provider: two calls with the same inputs, made in
    any two worlds and through any two clients that give the same reply to the
    request, have the same outcome. A call leaves the files as they are and
    sends at most one request. *)
Theorem C9_outcome_determined_by_reply os self1 self2 dockerfile scripts w1 w2 :
  (∀ user_prompt,
     render_user_prompt os dockerfile scripts = Return user_prompt →
     _client self1 w1 (request_of user_prompt) = _client self2 w2 (request_of user_prompt)) →
  fst (add_multistage_builds os self1 dockerfile scripts w1)
    = fst (add_multistage_builds os self2 dockerfile scripts w2)
  ∧ files (snd (add_multistage_builds os self1 dockerfile scripts w1)) = files w1
  ∧ (requests (snd (add_multistage_builds os self1 dockerfile scripts w1)) = requests w1
     ∨ ∃ req, requests (snd (add_multistage_builds os self1 dockerfile scripts w1))
              = requests w1 ++ [req]).
Proof.
  intros Hreply. rewrite !add_multistage_builds_run.
  destruct (render_user_prompt os dockerfile scripts) as [user_prompt|e]; simpl.
  - rewrite (Hreply user_prompt eq_refl). eauto.
  - eauto.
Qed.

Lemma C9_outcome_determined_by_reply_witness :
  fst (add_multistage_builds posix (canned (Some (py "FROM node"))) (py "FROM node:18") []
         empty_world)
  = fst (add_multistage_builds posix (warming_up (Some (py "FROM node"))) (py "FROM node:18") []
           (send (request_of (py "earlier")) empty_world)).
Proof.
  refine (proj1 (C9_outcome_determined_by_reply posix
    (canned (Some (py "FROM node"))) (warming_up (Some (py "FROM node")))
    (py "FROM node:18") [] empty_world (send (request_of (py "earlier")) empty_world) _)).
  intros user_prompt _. reflexivity.
Defined.

(** C10, as stated, fails: the returned string can begin with a backtick. *)
Lemma C10_backtick_at_the_start :
  ∃ r,
    fst (add_multistage_builds posix (canned (Some (py "` `a"))) (py "FROM node") []
           empty_world) = Return r
    ∧ r = py "`a"
    ∧ starts_in is_backtick r = true.
Proof. eexists. split; [vm_compute; reflexivity|]. split; vm_compute; reflexivity. Qed.

(** C10, amended. For a completion whose first choice has a text, the
    returned string neither begins nor ends with whitespace. It begins, or
    ends, with a backtick only when the strip of the backticks left whitespace
    at that end. *)
Theorem C10_no_whitespace_at_the_ends os self dockerfile scripts w user_prompt text :
  render_user_prompt os dockerfile scripts = Return user_prompt →
  completion_text (_client self w (request_of user_prompt)) = Some text →
  ∃ r,
    fst (add_multistage_builds os self dockerfile scripts w) = Return r
    ∧ starts_in isspace r = false
    ∧ ends_in isspace r = false
    ∧ (starts_in is_backtick r = true →
       starts_in isspace (strip (Some (py "```")) (strip None text)) = true)
    ∧ (ends_in is_backtick r = true →
       ends_in isspace (strip (Some (py "```")) (strip None text)) = true).
Proof.
  intros Hrender Htext. exists (sanitize text).
  split; [by rewrite (add_multistage_builds_returns _ _ _ _ _ _ _ Hrender Htext)|].
  split; [apply sanitize_no_leading_space|].
  split; [apply sanitize_no_trailing_space|].
  split.
  - apply backtick_left_behind_space, (starts_in_strip_by is_backtick).
  - apply backtick_right_behind_space, (ends_in_strip_by is_backtick).
Qed.

Lemma C10_no_whitespace_at_the_ends_witness :
  ∃ r,
    fst (add_multistage_builds posix (canned (Some (py " ```FROM node``` "))) (py "FROM node:18")
           [] empty_world) = Return r
    ∧ starts_in isspace r = false
    ∧ ends_in isspace r = false
    ∧ (starts_in is_backtick r = true →
       starts_in isspace (strip (Some (py "```")) (strip None (py " ```FROM node``` "))) = true)
    ∧ (ends_in is_backtick r = true →
       ends_in isspace (strip (Some (py "```")) (strip None (py " ```FROM node``` "))) = true).
Proof.
  apply (C10_no_whitespace_at_the_ends posix (canned (Some (py " ```FROM node``` ")))
           (py "FROM node:18") [] empty_world (fenced (py "FROM node:18"))).
  - vm_compute. reflexivity.
  - vm_compute. reflexivity.
Defined.

(** * Further properties of [add_multistage_builds] *)

(** ** Descriptors without a key *)

Lemma description_missing i script :
  ¬ has_fields script →
  description i script = Raise (KeyError (missing_key script)).
Proof.
  unfold has_fields, description, getitem, missing_key. intros Hnot.
  destruct (script !! py "script") as [name|] eqn:Hn; [|done].
  destruct (script !! py "commands") as [commands|] eqn:Hc; [|done].
  destruct Hnot. eauto.
Qed.

Lemma missing_key_absent script :
  ¬ has_fields script → script !! missing_key script = None.
Proof.
  unfold has_fields, missing_key. intros Hnot.
  destruct (script !! py "script") as [name|] eqn:Hn; [|done].
  destruct (script !! py "commands") as [commands|] eqn:Hc; [|done].
  destruct Hnot. eauto.
Qed.

Lemma descriptions_missing good : ∀ k bad rest,
  well_formed good → ¬ has_fields bad →
  descriptions k (good ++ bad :: rest) = Raise (KeyError (missing_key bad)).
Proof.
  induction good as [|script good IH]; intros k bad rest Hwf Hbad.
  - cbn [app descriptions]. by rewrite description_missing.
  - apply Forall_cons in Hwf as [[[name Hn] [commands Hc]] Hwf].
    cbn [app descriptions]. unfold description at 1, getitem. rewrite Hn, Hc.
    cbn [mbind outcome_bind]. by rewrite IH.
Qed.

Lemma descriptions_raise_key scripts : ∀ k e,
  descriptions k scripts = Raise e →
  e = KeyError (py "script") ∨ e = KeyError (py "commands").
Proof.
  induction scripts as [|script scripts IH]; intros k e; [done|].
  cbn [descriptions]. unfold description, getitem.
  destruct (script !! py "script"); cbn [mbind outcome_bind]; [|intros [= <-]; auto].
  destruct (script !! py "commands"); cbn [mbind outcome_bind]; [|intros [= <-]; auto].
  destruct (descriptions (S k) scripts) eqn:Hds; cbn [mbind outcome_bind]; [done|].
  intros [= <-]. eauto.
Qed.

Lemma render_user_prompt_raise_key os dockerfile scripts e :
  render_user_prompt os dockerfile scripts = Raise e →
  e = KeyError (py "script") ∨ e = KeyError (py "commands").
Proof.
  rewrite render_user_prompt_unfold. destruct scripts as [|script scripts]; [done|].
  destruct (descriptions 0 (script :: scripts)) eqn:Hds; cbn [mbind outcome_bind]; [done|].
  intros [= <-]. eauto using descriptions_raise_key.
Qed.

(** X1. A descriptor without one of its two keys stops the call before the
    provider is reached: with well-formed descriptors in front of it, the call
    raises [KeyError] for the key that the descriptor lacks ([script] first),
    whatever follows in the list, and the world is as it was. *)
Theorem X1_missing_key_sends_nothing os self dockerfile good bad rest w :
  well_formed good →
  ¬ has_fields bad →
  add_multistage_builds os self dockerfile (good ++ bad :: rest) w
    = (Raise (KeyError (missing_key bad)), w)
  ∧ bad !! missing_key bad = None.
Proof.
  intros Hwf Hbad. split; [|by apply missing_key_absent].
  rewrite add_multistage_builds_run, render_user_prompt_unfold.
  destruct (good ++ bad :: rest) as [|s l] eqn:Hl; [by destruct good|].
  rewrite <- Hl, (descriptions_missing good 0 bad rest Hwf Hbad). done.
Qed.

Lemma X1_missing_key_sends_nothing_witness :
  add_multistage_builds posix (canned (Some (py "FROM node"))) (py "FROM node:18")
    ([descriptor (py "build") (py "tsc")] ++ {[ py "script" := py "test" ]} :: []) empty_world
    = (Raise (KeyError (missing_key {[ py "script" := py "test" ]})), empty_world)
  ∧ ({[ py "script" := py "test" ]} : gmap str str) !! missing_key {[ py "script" := py "test" ]}
    = None.
Proof.
  apply (X1_missing_key_sends_nothing posix (canned (Some (py "FROM node"))) (py "FROM node:18")
           [descriptor (py "build") (py "tsc")] {[ py "script" := py "test" ]} [] empty_world).
  - repeat constructor; eexists; vm_compute; reflexivity.
  - intros [_ [commands Hc]]. vm_compute in Hc. discriminate.
Defined.

(** X2. The exceptions that leave a call, and what was sent when they do. A
    [KeyError] names [script] or [commands] and comes before any request. An
    [IndexError], an [AttributeError] or an exception of the client comes after
    the one request. Nothing else is raised: no Dockerfile text makes the
    template fail. *)
Theorem X2_exceptions_of_a_call os self dockerfile scripts w e :
  fst (add_multistage_builds os self dockerfile scripts w) = Raise e →
  ((e = KeyError (py "script") ∨ e = KeyError (py "commands"))
   ∧ snd (add_multistage_builds os self dockerfile scripts w) = w)
  ∨ ((e = IndexError ∨ e = AttributeError ∨ ∃ error_class, e = ProviderError error_class)
     ∧ ∃ user_prompt,
         render_user_prompt os dockerfile scripts = Return user_prompt
         ∧ snd (add_multistage_builds os self dockerfile scripts w)
           = send (request_of user_prompt) w).
Proof.
  rewrite add_multistage_builds_run.
  destruct (render_user_prompt os dockerfile scripts) as [user_prompt|e'] eqn:Hrender; simpl.
  - intros He%extract_raise. right. eauto.
  - intros [= <-]. left. eauto using render_user_prompt_raise_key.
Qed.

Lemma X2_exceptions_of_a_call_witness :
  ((AttributeError = KeyError (py "script") ∨ AttributeError = KeyError (py "commands"))
   ∧ snd (add_multistage_builds posix (canned None) (py "FROM node") [] empty_world)
     = empty_world)
  ∨ ((AttributeError = IndexError ∨ AttributeError = AttributeError
      ∨ ∃ error_class, AttributeError = ProviderError error_class)
     ∧ ∃ user_prompt,
         render_user_prompt posix (py "FROM node") [] = Return user_prompt
         ∧ snd (add_multistage_builds posix (canned None) (py "FROM node") [] empty_world)
           = send (request_of user_prompt) empty_world).
Proof.
  apply (X2_exceptions_of_a_call posix (canned None) (py "FROM node") [] empty_world
           AttributeError).
  vm_compute. reflexivity.
Defined.

(** X3. A failure of the client leaves the call as it is, wrapped in no other
    exception, and a completion with no choice ends in [IndexError]. In both
    cases the one request has been sent and no second one is made. *)
Theorem X3_provider_failure_propagates os self dockerfile scripts w user_prompt :
  render_user_prompt os dockerfile scripts = Return user_prompt →
  (∀ error_class,
     _client self w (request_of user_prompt) = Failed error_class →
     add_multistage_builds os self dockerfile scripts w
       = (Raise (ProviderError error_class), send (request_of user_prompt) w))
  ∧ (_client self w (request_of user_prompt) = Completed {| ChatCompletion.choices := [] |} →
     add_multistage_builds os self dockerfile scripts w
       = (Raise IndexError, send (request_of user_prompt) w)).
Proof.
  intros Hrender. split.
  - intros error_class Hreply. by rewrite add_multistage_builds_run, Hrender, Hreply.
  - intros Hreply. by rewrite add_multistage_builds_run, Hrender, Hreply.
Qed.

Lemma X3_provider_failure_propagates_witness :
  add_multistage_builds posix (warming_up (Some (py "FROM node"))) (py "FROM node:18") []
    empty_world
  = (Raise (ProviderError "RateLimitError"),
     send (request_of (fenced (py "FROM node:18"))) empty_world).
Proof.
  refine (proj1 (X3_provider_failure_propagates posix (warming_up (Some (py "FROM node")))
    (py "FROM node:18") [] empty_world (fenced (py "FROM node:18")) _) "RateLimitError" _);
    vm_compute; reflexivity.
Defined.

(** ** Further properties of the sanitization *)

Lemma space_not_backtick c : isspace c = true → is_backtick c = false.
Proof.
  intros Hs. destruct (is_backtick c) eqn:Hb; [|done].
  apply backtick_not_space in Hb. congruence.
Qed.

Lemma starts_in_app p s t : s ≠ [] → starts_in p (s ++ t) = starts_in p s.
Proof. by destruct s. Qed.

(** Whitespace, backticks and whitespace again in front of a text that begins
    with neither are removed whole, and nothing more. *)
Lemma sanitize_left_fenced ws b ws' t :
  all_in isspace ws → all_in is_backtick b → all_in isspace ws' →
  starts_in isspace t = false → starts_in is_backtick t = false →
  sanitize_left (ws ++ b ++ ws' ++ t) = t.
Proof.
  intros Hws Hb Hws' Hts Htb. unfold sanitize_left.
  rewrite (lstrip_by_all isspace ws) by done.
  destruct Hb as [|c b Hc Hb].
  - cbn [app]. rewrite (lstrip_by_all isspace ws') by done.
    rewrite (lstrip_by_id isspace t) by done.
    rewrite (lstrip_by_id is_backtick t) by done.
    by apply lstrip_by_id.
  - rewrite (lstrip_by_id isspace ((c :: b) ++ ws' ++ t))
      by (simpl; by apply backtick_not_space).
    rewrite (lstrip_by_all is_backtick (c :: b)) by by constructor.
    destruct Hws' as [|c' ws' Hc' Hws'].
    + cbn [app]. rewrite (lstrip_by_id is_backtick t) by done. by apply lstrip_by_id.
    + rewrite (lstrip_by_id is_backtick ((c' :: ws') ++ t))
        by (simpl; by apply space_not_backtick).
      rewrite (lstrip_by_all isspace (c' :: ws')) by by constructor.
      by apply lstrip_by_id.
Qed.

Lemma sanitize_right_fenced t ws' b ws :
  all_in isspace ws' → all_in is_backtick b → all_in isspace ws →
  ends_in isspace t = false → ends_in is_backtick t = false →
  sanitize_right (t ++ ws' ++ b ++ ws) = t.
Proof.
  intros Hws' Hb Hws Hts Htb. rewrite sanitize_right_reverse.
  rewrite !reverse_app, <- !(assoc_L (++)).
  rewrite sanitize_left_fenced; [apply reverse_involutive|by apply Forall_reverse..|done|done].
Qed.

Lemma sanitize_length x : length (sanitize x) ≤ length x.
Proof.
  destruct (sanitize_split x) as (pre & post & Hx & _).
  rewrite Hx at 2. rewrite !length_app. lia.
Qed.

Lemma sanitize_same_length x : length (sanitize x) = length x → sanitize x = x.
Proof.
  destruct (sanitize_split x) as (pre & post & Hx & _). intros Hlen.
  rewrite Hx in Hlen at 2. rewrite !length_app in Hlen.
  destruct pre; [|simpl in Hlen; lia]. destruct post; [|simpl in Hlen; lia].
  rewrite Hx at 2. by rewrite (right_id_L [] (++)).
Qed.

Lemma iter_fixed {A} (f : A → A) x n : f x = x → Nat.iter n f x = x.
Proof. intros Hx. induction n as [|n IH]; [done|]. simpl. by rewrite IH. Qed.

Lemma sanitize_iter_fixed n : ∀ x,
  length x ≤ n → sanitize (Nat.iter n sanitize x) = Nat.iter n sanitize x.
Proof.
  induction n as [|n IH]; intros x Hlen.
  - destruct x; [done|simpl in Hlen; lia].
  - destruct (decide (sanitize x = x)) as [Hfix|Hne].
    + by rewrite (iter_fixed sanitize x (S n) Hfix).
    + rewrite Nat.iter_succ_r. apply IH.
      pose proof (sanitize_length x) as Hle.
      destruct (decide (length (sanitize x) = length x)) as [Heq|Hlt]; [|lia].
      by apply sanitize_same_length in Heq.
Qed.

Lemma sanitize_fixed_clean y : sanitize y = y → clean_ends y.
Proof.
  intros Hfix.
  assert (starts_in isspace y = false) as Hsl
    by (rewrite <- Hfix; apply sanitize_no_leading_space).
  assert (ends_in isspace y = false) as Hsr
    by (rewrite <- Hfix; apply sanitize_no_trailing_space).
  repeat split; [done|done| |].
  - destruct (starts_in is_backtick y) eqn:Hb; [|done].
    assert (length (sanitize y) < length y) as Hlt by (apply sanitize_shorter; auto).
    rewrite Hfix in Hlt. lia.
  - destruct (ends_in is_backtick y) eqn:Hb; [|done].
    assert (length (sanitize y) < length y) as Hlt by (apply sanitize_shorter; auto).
    rewrite Hfix in Hlt. lia.
Qed.

(** X4. The call returns the completion as it is exactly when the completion
    has no whitespace and no backtick at either end; what it has inside plays
    no part. *)
Theorem X4_returned_as_is_iff_clean_ends os self dockerfile scripts w user_prompt text :
  render_user_prompt os dockerfile scripts = Return user_prompt →
  completion_text (_client self w (request_of user_prompt)) = Some text →
  fst (add_multistage_builds os self dockerfile scripts w) = Return text ↔ clean_ends text.
Proof.
  intros Hrender Htext.
  rewrite (add_multistage_builds_returns _ _ _ _ _ _ _ Hrender Htext). simpl. split.
  - intros [= Hfix]. by apply sanitize_fixed_clean.
  - intros (Hsl & Hsr & Hbl & Hbr). by rewrite sanitize_id.
Qed.

Lemma X4_returned_as_is_iff_clean_ends_witness :
  fst (add_multistage_builds posix (canned (Some (py "FROM node AS build
RUN echo `date`
FROM node:slim"))) (py "FROM node") [] empty_world)
  = Return (py "FROM node AS build
RUN echo `date`
FROM node:slim").
Proof.
  apply (X4_returned_as_is_iff_clean_ends posix _ (py "FROM node") [] empty_world
           (fenced (py "FROM node"))).
  - vm_compute. reflexivity.
  - vm_compute. reflexivity.
  - repeat split; vm_compute; reflexivity.
Defined.

(** X5. A text in a fence with no language tag is returned bare: when a
    non-empty text with clean ends stands between runs of whitespace, of
    backticks and of whitespace again on each side (each run may be empty), the
    result of [sanitize] is that text. *)
Theorem X5_bare_fence_is_removed ws1 b1 ws1' core ws2' b2 ws2 :
  all_in isspace ws1 → all_in is_backtick b1 → all_in isspace ws1' →
  all_in isspace ws2' → all_in is_backtick b2 → all_in isspace ws2 →
  core ≠ [] → clean_ends core →
  sanitize (ws1 ++ b1 ++ ws1' ++ core ++ ws2' ++ b2 ++ ws2) = core.
Proof.
  intros Hws1 Hb1 Hws1' Hws2' Hb2 Hws2 Hne (Hsl & Hsr & Hbl & Hbr).
  rewrite sanitize_ends.
  rewrite (sanitize_left_fenced ws1 b1 ws1' (core ++ ws2' ++ b2 ++ ws2));
    [|done..|by rewrite starts_in_app|by rewrite starts_in_app].
  by apply sanitize_right_fenced.
Qed.

Lemma X5_bare_fence_is_removed_witness :
  sanitize (py "
```
FROM node
CMD node index.js
```
") = py "FROM node
CMD node index.js".
Proof.
  apply (X5_bare_fence_is_removed (py "
") (py "```") (py "
") (py "FROM node
CMD node index.js") (py "
") (py "```") (py "
")); [repeat constructor..|discriminate|repeat split; vm_compute; reflexivity].
Defined.

(** X6. A completion with nothing but whitespace between its fences is
    sanitized to the empty string. *)
Theorem X6_blank_completion_is_empty ws1 b1 blank b2 ws2 :
  all_in isspace ws1 → all_in is_backtick b1 → all_in isspace blank →
  all_in is_backtick b2 → all_in isspace ws2 →
  sanitize (ws1 ++ b1 ++ blank ++ b2 ++ ws2) = [].
Proof.
  intros Hws1 Hb1 Hblank Hb2 Hws2.
  destruct (sanitize_wrapped ws1 b1 blank b2 ws2) as (pre & post & Hsplit); [done..|].
  pose proof (sanitize_no_leading_space (ws1 ++ b1 ++ blank ++ b2 ++ ws2)) as Hstart.
  destruct (sanitize (ws1 ++ b1 ++ blank ++ b2 ++ ws2)) as [|c r]; [done|].
  unfold all_in in Hblank. rewrite Hsplit in Hblank.
  apply Forall_app in Hblank as [_ Hblank]. apply Forall_app in Hblank as [Hblank _].
  apply Forall_cons in Hblank as [Hc _]. simpl in Hstart. congruence.
Qed.

Lemma X6_blank_completion_is_empty_witness :
  sanitize (py " ```

``` ") = [].
Proof.
  apply (X6_blank_completion_is_empty (py " ") (py "```") (py "

") (py "```") (py " ")); repeat constructor.
Defined.

(** X7. The sanitization takes characters away at the two ends only, and
    only whitespace and backticks: the completion is the returned string with a
    run of such characters in front of it and one behind it. *)
Theorem X7_only_the_ends_are_removed x :
  ∃ pre post,
    x = pre ++ sanitize x ++ post
    ∧ all_in (λ c, isspace c || is_backtick c) pre
    ∧ all_in (λ c, isspace c || is_backtick c) post.
Proof. apply sanitize_split. Qed.

(** X8. Applied again and again, [sanitize] comes to a string that it leaves
    as it is, after at most as many passes as the completion has characters. *)
Theorem X8_repeated_passes_settle x :
  sanitize (Nat.iter (length x) sanitize x) = Nat.iter (length x) sanitize x
  ∧ clean_ends (Nat.iter (length x) sanitize x).
Proof.
  assert (sanitize (Nat.iter (length x) sanitize x) = Nat.iter (length x) sanitize x) as Hfix
    by by apply sanitize_iter_fixed.
  split; [done|by apply sanitize_fixed_clean].
Qed.

(** ** Further properties of the rendering *)

Lemma descriptions_length scripts : ∀ k ds,
  descriptions k scripts = Return ds → length ds = length scripts.
Proof.
  induction scripts as [|script scripts IH]; intros k ds; cbn [descriptions].
  - by intros [= <-].
  - destruct (description k script) as [d|e]; cbn [mbind outcome_bind]; [|done].
    destruct (descriptions (S k) scripts) as [ds'|e] eqn:Hds; cbn [mbind outcome_bind]; [|done].
    intros [= <-]. simpl. f_equal. by eapply IH.
Qed.

Lemma descriptions_app l1 : ∀ k l2,
  descriptions k (l1 ++ l2)
  = (ds1 ← descriptions k l1; ds2 ← descriptions (k + length l1) l2; Return (ds1 ++ ds2)).
Proof.
  induction l1 as [|script l1 IH]; intros k l2.
  - cbn [app descriptions length mbind outcome_bind]. rewrite Nat.add_0_r.
    by destruct (descriptions k l2).
  - cbn [app descriptions length].
    destruct (description k script) as [d|e]; cbn [mbind outcome_bind]; [|done].
    rewrite IH. replace (S k + length l1) with (k + S (length l1)) by lia.
    destruct (descriptions (S k) l1) as [ds1|e]; cbn [mbind outcome_bind]; [|done].
    by destruct (descriptions (k + S (length l1)) l2).
Qed.

Lemma join_snoc sep l x : l ≠ [] → join sep (l ++ [x]) = join sep l ++ sep ++ x.
Proof.
  induction l as [|a l IH]; [done|]. intros _.
  destruct l as [|b l]; [done|].
  change (join sep ((a :: b :: l) ++ [x])) with (a ++ sep ++ join sep ((b :: l) ++ [x])).
  rewrite IH by done.
  change (join sep (a :: b :: l)) with (a ++ sep ++ join sep (b :: l)).
  by rewrite <- !(assoc_L (++)).
Qed.

Lemma join_length sep l :
  length (join sep l) = sum_list (length <$> l) + (length l - 1) * length sep.
Proof.
  induction l as [|a l IH]; [done|].
  destruct l as [|b l]; [simpl; lia|].
  change (join sep (a :: b :: l)) with (a ++ sep ++ join sep (b :: l)).
  rewrite !length_app, IH. simpl. lia.
Qed.

Lemma join_at_most_one sep1 sep2 (l : list str) :
  length l ≤ 1 → join sep1 l = join sep2 l.
Proof. destruct l as [|a [|b l]]; simpl; [done|done|lia]. Qed.

Lemma Return_inj {A} (a b : A) : Return a = Return b → a = b.
Proof. by intros [= ->]. Qed.

Lemma fenced_inj d1 d2 : fenced d1 = fenced d2 → d1 = d2.
Proof.
  unfold fenced. intros H. apply app_inv_head in H. by apply app_inv_tail in H.
Qed.

(** X9. The rendered prompt depends on the platform through [os.linesep]
    alone, and only from the second script on: for descriptors that have their
    two keys, the prompt is the same on POSIX and on Windows exactly when there
    is at most one script. *)
Theorem X9_prompt_and_platform dockerfile scripts :
  well_formed scripts →
  render_user_prompt posix dockerfile scripts = render_user_prompt nt dockerfile scripts
  ↔ length scripts ≤ 1.
Proof.
  intros Hwf. rewrite !render_user_prompt_unfold.
  destruct scripts as [|script scripts]; [simpl; split; [lia|done]|].
  destruct (descriptions_well_formed (script :: scripts) 0 Hwf) as (ds & Hds & Hlen & _).
  rewrite Hds. cbn [mbind outcome_bind]. rewrite <- Hlen. split.
  - intros Heq%Return_inj. apply app_inv_head in Heq. apply app_inv_head in Heq.
    apply (f_equal length) in Heq. rewrite !join_length in Heq. simpl in Heq. lia.
  - intros Hle. by rewrite (join_at_most_one (linesep posix) (linesep nt) ds Hle).
Qed.

Lemma X9_prompt_and_platform_witness :
  render_user_prompt posix (py "FROM node") [descriptor (py "build") (py "tsc")]
  = render_user_prompt nt (py "FROM node") [descriptor (py "build") (py "tsc")].
Proof.
  apply (X9_prompt_and_platform (py "FROM node") [descriptor (py "build") (py "tsc")]).
  - repeat constructor; eexists; vm_compute; reflexivity.
  - simpl. lia.
Defined.

(** X10. One more descriptor at the end of a non-empty script list adds to
    the prompt, behind what was rendered without it, the line separator and the
    entry of the new descriptor with the next number; the earlier text is not
    touched. *)
Theorem X10_one_more_script os dockerfile scripts script (name commands : str) :
  scripts ≠ [] →
  well_formed scripts →
  script !! py "script" = Some name →
  script !! py "commands" = Some commands →
  ∃ user_prompt,
    render_user_prompt os dockerfile scripts = Return user_prompt
    ∧ render_user_prompt os dockerfile (scripts ++ [script])
      = Return (user_prompt ++ linesep os ++
                str_of_nat (length scripts + 1) ++ py ". script: `" ++ name ++ py "`" ++ nl ++
                py "commands: `" ++ commands ++ py "`" ++ nl).
Proof.
  intros Hne Hwf Hn Hc.
  destruct (descriptions_well_formed scripts 0 Hwf) as (ds & Hds & Hlen & _).
  exists (fenced dockerfile ++ _prompt_npm_scripts_invoked ++ join (linesep os) ds).
  rewrite !render_user_prompt_unfold.
  destruct scripts as [|s l] eqn:Hs; [done|]. rewrite <- Hs in *.
  rewrite Hds. split; [done|].
  destruct (scripts ++ [script]) as [|s' l'] eqn:Hs'; [by destruct scripts|].
  rewrite <- Hs', descriptions_app, Hds. cbn [mbind outcome_bind descriptions].
  unfold description, getitem. rewrite Hn, Hc. cbn [mbind outcome_bind].
  rewrite join_snoc by (intros ->; by rewrite Hs in Hlen).
  by rewrite <- !(assoc_L (++)).
Qed.

Lemma X10_one_more_script_witness :
  ∃ user_prompt,
    render_user_prompt nt (py "FROM node") [descriptor (py "build") (py "tsc")]
      = Return user_prompt
    ∧ render_user_prompt nt (py "FROM node")
        ([descriptor (py "build") (py "tsc")] ++ [descriptor (py "test") (py "jest")])
      = Return (user_prompt ++ linesep nt ++
                str_of_nat (length [descriptor (py "build") (py "tsc")] + 1) ++
                py ". script: `" ++ py "test" ++ py "`" ++ nl ++
                py "commands: `" ++ py "jest" ++ py "`" ++ nl).
Proof.
  apply (X10_one_more_script nt (py "FROM node") [descriptor (py "build") (py "tsc")]
           (descriptor (py "test") (py "jest")) (py "test") (py "jest")).
  - discriminate.
  - repeat constructor; eexists; vm_compute; reflexivity.
  - vm_compute. reflexivity.
  - vm_compute. reflexivity.
Defined.

(** X11. For a given script list the prompt keeps the Dockerfile apart: two
    Dockerfile texts that are rendered to the same prompt are the same text. *)
Theorem X11_prompt_determines_dockerfile os d1 d2 scripts user_prompt :
  render_user_prompt os d1 scripts = Return user_prompt →
  render_user_prompt os d2 scripts = Return user_prompt →
  d1 = d2.
Proof.
  rewrite !render_user_prompt_unfold. destruct scripts as [|script scripts].
  - intros <-%Return_inj H%Return_inj. by apply fenced_inj.
  - destruct (descriptions 0 (script :: scripts)) as [ds|e]; cbn [mbind outcome_bind]; [|done].
    intros <-%Return_inj H%Return_inj. apply app_inv_tail in H. by apply fenced_inj.
Qed.

Lemma X11_prompt_determines_dockerfile_witness : py "FROM node" = py "FROM node".
Proof.
  apply (X11_prompt_determines_dockerfile posix (py "FROM node") (py "FROM node") []
           (fenced (py "FROM node"))); vm_compute; reflexivity.
Defined.

Lemma description_descriptor i (name commands : str) :
  description i (descriptor name commands) = Return (entry (i + 1) name commands).
Proof.
  assert (py "script" ≠ py "commands") as Hne by (intros H; vm_compute in H; discriminate).
  unfold description, getitem, descriptor.
  rewrite lookup_insert_eq. cbn [mbind outcome_bind].
  rewrite lookup_insert_ne by done. rewrite lookup_singleton_eq. done.
Qed.

Lemma descriptions_entries scripts : ∀ k ds,
  descriptions k scripts = Return ds →
  ∀ i script, scripts !! i = Some script →
    ∃ name commands,
      script !! py "script" = Some name ∧ script !! py "commands" = Some commands
      ∧ ds !! i = Some (entry (k + i + 1) name commands).
Proof.
  induction scripts as [|s scripts IH]; intros k ds Hds i script Hi; [done|].
  cbn [descriptions] in Hds. unfold description, getitem in Hds.
  destruct (s !! py "script") as [name|] eqn:Hn; [|done].
  destruct (s !! py "commands") as [commands|] eqn:Hc; [|done].
  cbn [mbind outcome_bind] in Hds.
  destruct (descriptions (S k) scripts) as [ds'|e] eqn:Hds'; [|done].
  cbn [mbind outcome_bind] in Hds. apply Return_inj in Hds as <-.
  destruct i as [|i].
  - injection Hi as <-. exists name, commands. by rewrite Nat.add_0_r.
  - destruct (IH (S k) ds' Hds' i script Hi) as (n & c & ? & ? & He).
    exists n, c. repeat split; [done..|].
    replace (k + S i + 1) with (S k + i + 1) by lia. done.
Qed.

Lemma contains_refl_app pre s post : contains (pre ++ s ++ post) s = true.
Proof. apply contains_spec. by exists pre, post. Qed.

Lemma contains_suffix pre s : contains (pre ++ s) s = true.
Proof. apply contains_spec. exists pre, []. by rewrite (right_id_L [] (++)). Qed.

Lemma contains_trans s t u : contains s t = true → contains t u = true → contains s u = true.
Proof.
  rewrite !contains_spec. intros (p & q & ->) (p' & q' & ->).
  exists (p ++ p'), (q' ++ q). by rewrite <- !(assoc_L (++)).
Qed.

Lemma join_contains sep (l : list str) i x :
  l !! i = Some x → contains (join sep l) x = true.
Proof.
  revert i. induction l as [|a l IH]; intros i Hi; [done|].
  destruct l as [|b l].
  - destruct i; [|done]. injection Hi as ->. apply (contains_suffix [] x).
  - change (join sep (a :: b :: l)) with (a ++ sep ++ join sep (b :: l)).
    destruct i as [|i].
    + injection Hi as ->. apply (contains_refl_app [] x).
    + apply (contains_trans _ (join sep (b :: l))); [|by eapply IH].
      rewrite (assoc_L (++)). apply contains_suffix.
Qed.

(** X12. The values of a descriptor are put into the entry as they are, with
    no escape for a backtick or a newline, so the prompt does not tell two
    descriptors from each other when the text of the entry can be cut in two
    ways: a script name that ends in the closing backtick and the [commands: ]
    label renders like commands that begin with them. *)
Theorem X12_entries_are_not_escaped os dockerfile (a b c : str) :
  render_user_prompt os dockerfile
    [descriptor (a ++ py "`" ++ nl ++ py "commands: `" ++ b) c]
  = render_user_prompt os dockerfile
      [descriptor a (b ++ py "`" ++ nl ++ py "commands: `" ++ c)].
Proof.
  rewrite !render_user_prompt_unfold. cbn [descriptions].
  rewrite !description_descriptor. cbn [mbind outcome_bind]. unfold entry.
  by rewrite <- !(assoc_L (++)).
Qed.

(** X13. Whatever the scripts, a prompt that is rendered begins with the
    directive and the fenced Dockerfile, and it holds the script name and the
    commands of every descriptor of the list. *)
Theorem X13_prompt_holds_its_inputs os dockerfile scripts user_prompt :
  render_user_prompt os dockerfile scripts = Return user_prompt →
  startswith user_prompt (fenced dockerfile) = true
  ∧ contains user_prompt dockerfile = true
  ∧ ∀ i script, scripts !! i = Some script →
      ∃ name commands,
        script !! py "script" = Some name ∧ script !! py "commands" = Some commands
        ∧ contains user_prompt name = true ∧ contains user_prompt commands = true.
Proof.
  rewrite render_user_prompt_unfold. intros Hrender.
  assert (∃ block, user_prompt = fenced dockerfile ++ block) as [block Hprompt].
  { destruct scripts as [|script scripts].
    - apply Return_inj in Hrender as <-. exists []. by rewrite (right_id_L [] (++)).
    - destruct (descriptions 0 (script :: scripts)) as [ds|e]; [|done].
      apply Return_inj in Hrender as <-. eauto. }
  split; [apply startswith_spec; eauto|]. split.
  { rewrite Hprompt. unfold fenced. rewrite <- !(assoc_L (++)). apply contains_refl_app. }
  intros i script Hi.
  destruct scripts as [|s l] eqn:Hs; [done|]. rewrite <- Hs in *.
  destruct (descriptions 0 scripts) as [ds|e] eqn:Hds; [|done].
  apply Return_inj in Hrender as <-.
  destruct (descriptions_entries scripts 0 ds Hds i script Hi)
    as (name & commands & Hn & Hc & Hentry).
  exists name, commands. split; [done|]. split; [done|].
  assert (contains (fenced dockerfile ++ _prompt_npm_scripts_invoked ++ join (linesep os) ds)
            (entry (0 + i + 1) name commands) = true) as Hin.
  { apply (contains_trans _ (join (linesep os) ds)); [|by eapply join_contains].
    rewrite (assoc_L (++)). apply contains_suffix. }
  split; (eapply contains_trans; [exact Hin|]); unfold entry; apply contains_spec.
  - exists (str_of_nat (0 + i + 1) ++ py ". script: `"),
      (py "`" ++ nl ++ py "commands: `" ++ commands ++ py "`" ++ nl).
    by rewrite <- !(assoc_L (++)).
  - exists (str_of_nat (0 + i + 1) ++ py ". script: `" ++ name ++ py "`" ++ nl ++
            py "commands: `"), (py "`" ++ nl).
    by rewrite <- !(assoc_L (++)).
Qed.

Lemma X13_prompt_holds_its_inputs_witness :
  contains (fenced (py "FROM node") ++ _prompt_npm_scripts_invoked ++
            entry 1 (py "build") (py "tsc")) (py "FROM node") = true.
Proof.
  refine (proj1 (proj2 (X13_prompt_holds_its_inputs nt (py "FROM node")
    [descriptor (py "build") (py "tsc")]
    (fenced (py "FROM node") ++ _prompt_npm_scripts_invoked ++ entry 1 (py "build") (py "tsc"))
    _))).
  vm_compute. reflexivity.
Defined.

(** X14. What a call sends is a matter of the platform, the Dockerfile and
    the scripts alone: through any two clients and in any two worlds the same
    requests go out, so nothing of the earlier requests or of the files gets
    into a request. *)
Theorem X14_request_ignores_the_world os self1 self2 dockerfile scripts w1 w2 :
  sent (add_multistage_builds os self1 dockerfile scripts) w1
  = sent (add_multistage_builds os self2 dockerfile scripts) w2.
Proof.
  unfold sent. rewrite !add_multistage_builds_run.
  destruct (render_user_prompt os dockerfile scripts) as [user_prompt|e]; simpl.
  - by rewrite !drop_app_length.
  - by rewrite !drop_all.
Qed.
